(** * The Iris classification service: embedding and properties

    A shallow embedding of [src/api/app.py] (the FastAPI inference service)
    and of [src/data/data_loader.py] (the data pipeline), followed by the
    properties the specification states about them.

    - [Py]          the fragment of the Python runtime the code relies on:
                    exceptions, [try]/[except], list indexing, [max], dict
                    comprehension, and a state-and-exception monad;
    - [App]         [src/api/app.py];
    - [DataLoader]  [src/data/data_loader.py];
    - [AppProps], [DataLoaderProps]  the theorems;
    - [AppRest], [DataLoaderRest]  the remaining functions of the two
                    files, with [AppRestProps] and [DataLoaderRestProps].

    Numbers: a Python [float] that the code only stores, compares and passes
    on (features, probabilities) is the rational it denotes; the one float
    that is multiplied and rounded ([test_size]) is a binary64 float. *)

From Stdlib Require Import ZArith QArith Qabs Floats Lia.
From stdpp Require Import base option strings list gmap.

Local Open Scope Z_scope.

(* ===================================================================== *)
(** * Part I: the embedding                                               *)
(* ===================================================================== *)

Module Py.

(** Python exceptions, as far as the service tells them apart. Every
    constructor is a subclass of [Exception]. *)
Inductive exn : Type :=
| HTTPException (status_code : Z) (detail : string)
| RequestValidationError (detail : string)
| FileNotFoundError (msg : string)
| RuntimeError (msg : string)
| IndexError (msg : string)
| ValueError (msg : string)
| OtherException (msg : string).

(** [str(e)] *)
Definition str (e : exn) : string :=
  match e with
  | HTTPException _ d => d
  | RequestValidationError d => d
  | FileNotFoundError m | RuntimeError m | IndexError m
  | ValueError m | OtherException m => m
  end.

(** The outcome of a call: a value, or a raised exception. *)
Inductive result (A : Type) : Type :=
| Return (a : A)
| Raise (e : exn).
Arguments Return {A} a.
Arguments Raise {A} e.

Definition returned {A} (r : result A) : bool :=
  match r with Return _ => true | Raise _ => false end.

(** Code that reads and writes a state [S] and may raise. A raised
    exception keeps the writes made before it, as in Python. *)
Definition M (S A : Type) : Type := S -> result A * S.

Definition ret {S A} (a : A) : M S A := fun s => (Return a, s).

Definition bind {S A B} (c : M S A) (k : A -> M S B) : M S B :=
  fun s => match c s with
           | (Return a, s') => k a s'
           | (Raise e, s') => (Raise e, s')
           end.

Definition raise {S A} (e : exn) : M S A := fun s => (Raise e, s).

Definition lift {S A} (r : result A) : M S A := fun s => (r, s).

Definition get {S} : M S S := fun s => (Return s, s).

Definition modify {S} (f : S -> S) : M S unit := fun s => (Return tt, f s).

(** [try: body  except Exception as e: handler e] *)
Definition try_except {S A} (body : M S A) (handler : exn -> M S A) : M S A :=
  fun s => match body s with
           | (Return a, s') => (Return a, s')
           | (Raise e, s') => handler e s'
           end.

(** [try: body  except FileNotFoundError: handler]: any other exception
    propagates. *)
Definition try_except_FileNotFoundError {S A}
    (body : M S A) (handler : M S A) : M S A :=
  fun s => match body s with
           | (Raise (FileNotFoundError _), s') => handler s'
           | other => other
           end.

Declare Scope py_scope.
Delimit Scope py_scope with py.
Notation "x <- c ;; k" := (bind c (fun x => k))
  (at level 100, c at next level, right associativity) : py_scope.
Notation "c ;;; k" := (bind c (fun _ => k))
  (at level 100, right associativity) : py_scope.

(** An integer that fits the index type of the interpreter
    ([Py_ssize_t], 64 bits). *)
Definition index_sized (i : Z) : bool := (- 2 ^ 63 <=? i) && (i <? 2 ^ 63).

(** [l[i]] on a list: a negative index counts from the end, an index
    out of range raises [IndexError], and so, with a text of its own,
    does an integer that does not fit the index type. *)
Definition getitem {A} (l : list A) (i : Z) : result A :=
  if index_sized i then
    let n := Z.of_nat (length l) in
    let j := if i <? 0 then i + n else i in
    if (0 <=? j) && (j <? n) then
      match l !! Z.to_nat j with
      | Some x => Return x
      | None => Raise (IndexError "list index out of range")
      end
    else Raise (IndexError "list index out of range")
  else Raise (IndexError "cannot fit 'int' into an index-sized integer").

(** [a[0]] on a numpy array: its first item, or first row; numpy's
    [IndexError] when the array is empty. *)
Definition ndarray_first {A} (a : list A) : result A :=
  match a with
  | x :: _ => Return x
  | [] => Raise (IndexError "index 0 is out of bounds for axis 0 with size 0")
  end.

(** [a < b] on floats *)
Definition Qlt_bool (a b : Q) : bool := negb (Qle_bool b a).

(** [max(xs)]: the first largest item; [ValueError] on an empty
    sequence. *)
Definition max_from (cur : Q) (xs : list Q) : Q :=
  foldl (fun cur x => if Qlt_bool cur x then x else cur) cur xs.

Definition max (xs : list Q) : result Q :=
  match xs with
  | [] => Raise (ValueError "max() arg is an empty sequence")
  | x :: rest => Return (max_from x rest)
  end.

(** [{k: v for k, v in kvs}]: later pairs overwrite earlier ones. *)
Definition dict_comp {V} (kvs : list (string * V)) : gmap string V :=
  foldl (fun d kv => <[kv.1 := kv.2]> d) ∅ kvs.

(** [sum(d.values())] *)
Definition sum_values (d : gmap string Q) : Q :=
  foldr Qplus 0%Q (map_to_list d).*2.

(** [math.ceil(x)] of a binary64 float; [None] for an infinity or a NaN
    (where Python raises). *)
Definition ceil (x : float) : option Z :=
  match Prim2SF x with
  | S754_zero _ => Some 0
  | S754_finite neg m e =>
      let v := if neg then Z.neg m else Z.pos m in
      Some (if 0 <=? e then v * 2 ^ e else - ((- v) / 2 ^ (- e)))
  | _ => None
  end.

(** [float(n)] of a non-negative machine-size integer *)
Definition float_of_Z (n : Z) : float := PrimFloat.of_uint63 (Uint63.of_Z n).

End Py.

(* --------------------------------------------------------------------- *)
(** ** [src/api/app.py]                                                   *)
(* --------------------------------------------------------------------- *)

Module App.
Import Py.
Local Open Scope py_scope.

(** *** Request and response models *)

(** [class IrisFeatures(BaseModel)] *)
Record IrisFeatures : Type := {
  sepal_length : Q;
  sepal_width : Q;
  petal_length : Q;
  petal_width : Q
}.

(** [Field(..., ge=0, le=10)] *)
Definition field_ok (x : Q) : bool := Qle_bool 0 x && Qle_bool x 10.

(** Validation of a request body against [IrisFeatures], which FastAPI
    runs before it calls the handler; a failure is answered with 422. *)
Definition IrisFeatures_validate (body : IrisFeatures) : result IrisFeatures :=
  if field_ok (sepal_length body) && field_ok (sepal_width body)
     && field_ok (petal_length body) && field_ok (petal_width body)
  then Return body
  else Raise (RequestValidationError "ensure this value is within [0, 10]").

(** [class BatchIrisFeatures(BaseModel)]: [samples: List[IrisFeatures]] *)
Fixpoint BatchIrisFeatures_validate (samples : list IrisFeatures)
    : result (list IrisFeatures) :=
  match samples with
  | [] => Return []
  | s :: rest =>
      match IrisFeatures_validate s with
      | Raise e => Raise e
      | Return s' =>
          match BatchIrisFeatures_validate rest with
          | Raise e => Raise e
          | Return rest' => Return (s' :: rest')
          end
      end
  end.

(** [class PredictionResponse(BaseModel)] *)
Record PredictionResponse : Type := {
  prediction : string;
  prediction_id : Z;
  confidence : Q;
  probabilities : gmap string Q
}.

(** [class BatchPredictionResponse(BaseModel)] *)
Record BatchPredictionResponse : Type := {
  predictions : list PredictionResponse;
  batch_size : Z
}.

(** The body of [GET /health] *)
Record HealthResponse : Type := {
  status : string;
  model_loaded : bool;
  timestamp : string
}.

(** The dict that [root] and [api_info] return *)
Record ApiInfo : Type := {
  message : string;
  version : string;
  description : string;
  endpoints : list (string * string)
}.

(** *** The classifier and the process state *)

(** The object behind the global [model]: a fitted scikit-learn
    classifier, used through its two query methods on a 2-d array. *)
Record Model : Type := {
  model_predict : list (list Q) -> result (list Z);
  model_predict_proba : list (list Q) -> result (list (list Q))
}.

Inductive ModelCall : Type :=
| CallPredict (a : list (list Q))
| CallPredictProba (a : list (list Q)).

Inductive File : Type :=
| JoblibFile (m : Model)      (* [joblib.load] returns [m] *)
| OtherFile (content : string). (* [joblib.load] raises *)

(** The state a request handler or [load_model] runs in: the global
    [model], the filesystem, and the calls made to the classifier so far
    (a ghost field: the code keeps no such log). *)
Record World : Type := {
  model : option Model;
  fs : gmap string File;
  inference_log : list ModelCall
}.

Definition set_model (m : option Model) (w : World) : World :=
  {| model := m; fs := fs w; inference_log := inference_log w |}.

Definition set_fs (f : gmap string File) (w : World) : World :=
  {| model := model w; fs := f; inference_log := inference_log w |}.

Definition log_call (c : ModelCall) (w : World) : World :=
  {| model := model w; fs := fs w;
     inference_log := inference_log w ++ [c] |}.

(** [model.predict(a)] and [model.predict_proba(a)] *)
Definition call_predict (m : Model) (a : list (list Q)) : M World (list Z) :=
  modify (log_call (CallPredict a)) ;;; lift (model_predict m a).

Definition call_predict_proba (m : Model) (a : list (list Q))
    : M World (list (list Q)) :=
  modify (log_call (CallPredictProba a)) ;;; lift (model_predict_proba m a).

(** [src/models/iris_model.py] is not among the sources at hand. What
    [load_model] uses of it, and of [os.makedirs], is taken as a
    parameter:
    - [iris_train]: [IrisModel()], [load_data()] and [train(X, y)] with
      the default parameters, giving [iris_model.model] or raising;
    - [makedirs]: [os.makedirs(path, exist_ok=True)];
    - [iris_save]: [iris_model.save_model(path)], giving the filesystem
      after the call or raising. *)
Record Env : Type := {
  iris_train : result Model;
  makedirs : string -> gmap string File -> result unit;
  iris_save : Model -> string -> gmap string File -> result (gmap string File)
}.

Definition feature_names : list string :=
  ["sepal length (cm)"; "sepal width (cm)";
   "petal length (cm)"; "petal width (cm)"].

Definition target_names : list string := ["setosa"; "versicolor"; "virginica"].

(** *** [load_model] *)

Definition model_paths : list string :=
  ["models/iris_model.joblib"; "/app/models/iris_model.joblib";
   "iris_model.joblib"].

(** [Path(p).exists()] *)
Definition path_exists (p : string) : M World bool :=
  w <- get ;; ret (bool_decide (is_Some (fs w !! p))).

(** [joblib.load(p)] *)
Definition joblib_load (p : string) : M World Model :=
  w <- get ;;
  match fs w !! p with
  | Some (JoblibFile m) => ret m
  | Some (OtherFile _) => raise (OtherException "could not unpickle the file")
  | None => raise (FileNotFoundError p)
  end.

(** The [for model_path in model_paths] loop; [true] when the loop
    body executed [return]. *)
Fixpoint load_model_loop (paths : list string) : M World bool :=
  match paths with
  | [] => ret false
  | model_path :: rest =>
      found <- path_exists model_path ;;
      if found : bool then
        try_except
          (m <- joblib_load model_path ;;
           modify (set_model (Some m)) ;;;
           ret true)
          (fun _ => load_model_loop rest)
      else load_model_loop rest
  end.

Definition load_model (env : Env) : M World unit :=
  done <- load_model_loop model_paths ;;
  if done : bool then ret tt
  else
    try_except
      (m <- lift (iris_train env) ;;
       w <- get ;;
       lift (makedirs env "models" (fs w)) ;;;
       f <- lift (iris_save env m "models/iris_model.joblib" (fs w)) ;;
       modify (set_fs f) ;;;
       modify (set_model (Some m)))
      (fun _ => raise (RuntimeError "Could not load or train model")).

(** [startup_event] *)
Definition startup_event (env : Env) : M World unit := load_model env.

(** *** Handlers *)

Definition api_description : ApiInfo :=
  {| message := "Iris Classification API";
     version := "1.0.0";
     description := "MLOps Demo - Classify iris flowers using machine learning";
     endpoints :=
       [("predict", "/predict - Single prediction");
        ("predict_batch", "/predict/batch - Batch predictions");
        ("health", "/health - Health check");
        ("docs", "/docs - API documentation")] |}.

(** Starlette's [FileResponse] (library code): the constructor records
    the path and does not touch the file; the file is looked up when the
    response is sent ([FileResponse.__call__]), after the handler has
    returned, and a missing file raises [RuntimeError] there. *)
Record FileResponse : Type := { path : string }.

Definition FileResponse_init (p : string) : M World FileResponse :=
  ret {| path := p |}.

Definition FileResponse_call (r : FileResponse) : M World string :=
  w <- get ;;
  match fs w !! path r with
  | Some (OtherFile content) => ret content
  | Some (JoblibFile _) => ret "<binary>"
  | None =>
      raise (RuntimeError ("File at path " +:+ path r +:+ " does not exist."))
  end.

Inductive RootResponse : Type :=
| ServeFile (r : FileResponse)
| ServeJson (d : ApiInfo).

(** [root] *)
Definition root : M World RootResponse :=
  try_except_FileNotFoundError
    (r <- FileResponse_init "static/index.html" ;; ret (ServeFile r))
    (ret (ServeJson api_description)).

(** [api_info] *)
Definition api_info : M World ApiInfo := ret api_description.

(** [health_check] *)
Definition health_check : M World HealthResponse :=
  w <- get ;;
  match model w with
  | None => raise (HTTPException 503 "Model not loaded")
  | Some _ =>
      ret {| status := "healthy";
             model_loaded := bool_decide (is_Some (model w));
             timestamp := "2024-01-01T00:00:00Z" |}
  end.

(** [np.array([[...]])] of a sample's four fields *)
Definition feature_array (s : IrisFeatures) : list (list Q) :=
  [[sepal_length s; sepal_width s; petal_length s; petal_width s]].

(** The statements from [# Convert features to numpy array] to the
    construction of the [PredictionResponse], which [predict] and the
    loop body of [predict_batch] both consist of. *)
Definition predict_one (m : Model) (s : IrisFeatures) : M World PredictionResponse :=
  let a := feature_array s in
  ids <- call_predict m a ;;
  prediction_id <- lift (ndarray_first ids) ;;
  prediction_name <- lift (getitem target_names prediction_id) ;;
  probs <- call_predict_proba m a ;;
  probabilities <- lift (ndarray_first probs) ;;
  confidence <- lift (max probabilities) ;;
  let prob_dict := dict_comp (zip target_names probabilities) in
  ret {| prediction := prediction_name;
         prediction_id := prediction_id;
         confidence := confidence;
         probabilities := prob_dict |}.

(** [predict] *)
Definition predict (features : IrisFeatures) : M World PredictionResponse :=
  w <- get ;;
  match model w with
  | None => raise (HTTPException 503 "Model not loaded")
  | Some m =>
      try_except (predict_one m features)
        (fun e => raise (HTTPException 500 ("Prediction failed: " +:+ str e)))
  end.

(** The [for sample in batch.samples] loop, appending to [predictions] *)
Fixpoint predict_batch_loop (m : Model) (samples : list IrisFeatures)
    (predictions : list PredictionResponse) : M World (list PredictionResponse) :=
  match samples with
  | [] => ret predictions
  | sample :: rest =>
      r <- predict_one m sample ;;
      predict_batch_loop m rest (predictions ++ [r])
  end.

(** [predict_batch] *)
Definition predict_batch (samples : list IrisFeatures)
    : M World BatchPredictionResponse :=
  w <- get ;;
  match model w with
  | None => raise (HTTPException 503 "Model not loaded")
  | Some m =>
      if 100 <? Z.of_nat (length samples) then
        raise (HTTPException 400 "Batch size cannot exceed 100 samples")
      else
        try_except
          (predictions <- predict_batch_loop m samples [] ;;
           ret {| predictions := predictions;
                  batch_size := Z.of_nat (length predictions) |})
          (fun e =>
             raise (HTTPException 500 ("Batch prediction failed: " +:+ str e)))
  end.

(** *** The routes, as FastAPI dispatches them *)

(** [POST /predict]: the body is validated, then [predict] runs. *)
Definition post_predict (body : IrisFeatures) : M World PredictionResponse :=
  features <- lift (IrisFeatures_validate body) ;; predict features.

(** [POST /predict/batch] *)
Definition post_predict_batch (body : list IrisFeatures)
    : M World BatchPredictionResponse :=
  samples <- lift (BatchIrisFeatures_validate body) ;; predict_batch samples.

(** What the client receives: a status code and a body. *)
Inductive Body : Type :=
| FileBody (content : string)
| JsonBody (d : ApiInfo)
| ErrorBody (detail : string).

(** An exception that leaves a route: [HTTPException] carries its
    status, request validation answers 422, anything else 500. *)
Definition error_reply (e : exn) : Z * Body :=
  match e with
  | HTTPException code detail => (code, ErrorBody detail)
  | RequestValidationError detail => (422, ErrorBody detail)
  | _ => (500, ErrorBody "Internal Server Error")
  end.

(** [GET /]: [root] runs, then its return value is sent. *)
Definition get_root : M World (Z * Body) :=
  fun w =>
    match (r <- root ;;
           match r with
           | ServeFile f => content <- FileResponse_call f ;; ret (200, FileBody content)
           | ServeJson d => ret (200, JsonBody d)
           end) w with
    | (Return reply, w') => (Return reply, w')
    | (Raise e, w') => (Return (error_reply e), w')
    end.

End App.

(* --------------------------------------------------------------------- *)
(** ** [src/data/data_loader.py]                                          *)
(* --------------------------------------------------------------------- *)

Module DataLoader.
Import Py.

Section SplitData.
(** [Row]: a row of the feature matrix [X]. [Ambient]: the state of
    numpy's global random generator, which scikit-learn draws from
    when it is given no seed. *)
Context {Row Ambient : Type}.

(** [X_train, X_test, y_train, y_test] *)
Record Split : Type := {
  X_train : list Row;
  X_test : list Row;
  y_train : list Z;
  y_test : list Z
}.

(** [sklearn.model_selection.train_test_split(X, y, test_size=...,
    random_state=..., stratify=...)] (library code), taken as a
    parameter. *)
Variable train_test_split :
  list Row -> list Z -> float -> option Z -> option (list Z) -> M Ambient Split.

(** [DataLoader.split_data]; [self] is neither read nor written. *)
Definition split_data (X : list Row) (y : list Z)
    (test_size : float) (random_state : Z) : M Ambient Split :=
  train_test_split X y test_size (Some random_state) (Some y).

End SplitData.

Arguments Split : clear implicits.

(** The defaults [test_size: float = 0.2] and [random_state: int = 42];
    the literal [0.2] denotes the binary64 float nearest to it. *)
Definition default_test_size : float := 0x1.999999999999ap-3%float.
Definition default_random_state : Z := 42.

End DataLoader.

(* ===================================================================== *)
(** * Part II: properties                                                 *)
(* ===================================================================== *)

(** ** Facts about the Python fragment *)

Module PyFacts.
Import Py.

Lemma Qlt_bool_true (a b : Q) : Qlt_bool a b = true -> (a <= b)%Q.
Proof.
  unfold Qlt_bool. intros H. apply negb_true_iff in H.
  destruct (Qlt_le_dec a b) as [Hlt | Hle].
  - apply Qlt_le_weak, Hlt.
  - apply Qle_bool_iff in Hle. congruence.
Qed.

Lemma Qlt_bool_false (a b : Q) : Qlt_bool a b = false -> (b <= a)%Q.
Proof.
  unfold Qlt_bool. intros H. apply negb_false_iff in H.
  apply Qle_bool_iff, H.
Qed.

(** [max] returns an upper bound of the sequence ... *)
Lemma max_from_upper (xs : list Q) : forall cur,
  (cur <= max_from cur xs)%Q /\ Forall (fun x => (x <= max_from cur xs)%Q) xs.
Proof.
  induction xs as [| x xs IH]; intros cur; simpl.
  - split; [apply Qle_refl | constructor].
  - unfold max_from in *. simpl.
    destruct (Qlt_bool cur x) eqn:Hc.
    + destruct (IH x) as [Hx Hall]. split; [| constructor; assumption].
      eapply Qle_trans; [apply Qlt_bool_true, Hc | exact Hx].
    + destruct (IH cur) as [Hcur Hall]. split; [exact Hcur |].
      constructor; [| assumption].
      eapply Qle_trans; [apply Qlt_bool_false, Hc | exact Hcur].
Qed.

(** ... that is one of its items. *)
Lemma max_from_elem (xs : list Q) : forall cur, max_from cur xs ∈ cur :: xs.
Proof.
  induction xs as [| x xs IH]; intros cur; unfold max_from in *; simpl.
  - apply list_elem_of_here.
  - destruct (Qlt_bool cur x).
    + apply list_elem_of_further, IH.
    + pose proof (IH cur) as Hcur. apply elem_of_cons in Hcur as [-> | Hin].
      * apply list_elem_of_here.
      * do 2 apply list_elem_of_further. exact Hin.
Qed.

Lemma max_spec (xs : list Q) (c : Q) :
  max xs = Return c -> c ∈ xs /\ Forall (fun x => (x <= c)%Q) xs.
Proof.
  destruct xs as [| x rest]; simpl; intros H; [discriminate |].
  injection H as <-. split; [apply max_from_elem |].
  destruct (max_from_upper rest x). constructor; assumption.
Qed.

Lemma max_nonempty (x : Q) (rest : list Q) : exists c, max (x :: rest) = Return c.
Proof. eexists. reflexivity. Qed.

(** [getitem] within range is list lookup. *)
Lemma index_sized_spec (i : Z) :
  index_sized i = true <-> - 2 ^ 63 <= i < 2 ^ 63.
Proof.
  unfold index_sized. rewrite andb_true_iff, Z.leb_le, Z.ltb_lt. reflexivity.
Qed.

Lemma getitem_in_range {A} (l : list A) (i : Z) :
  0 <= i < Z.of_nat (length l) ->
  Z.of_nat (length l) <= 2 ^ 63 ->
  exists x, getitem l i = Return x /\ l !! Z.to_nat i = Some x.
Proof.
  intros [H0 Hn] Hsize. unfold getitem.
  rewrite (proj2 (index_sized_spec i)) by lia.
  destruct (Z.ltb_spec i 0) as [? | _]; [lia |].
  destruct (Z.leb_spec 0 i) as [_ | ?]; [| lia].
  destruct (Z.ltb_spec i (Z.of_nat (length l))) as [_ | ?]; [| lia].
  simpl. destruct (l !! Z.to_nat i) as [x |] eqn:Hl; [eauto |].
  apply lookup_ge_None in Hl. lia.
Qed.

(** Whatever [getitem] returns is an item of the sequence. *)
Lemma getitem_elem {A} (l : list A) (i : Z) (x : A) :
  getitem l i = Return x -> x ∈ l.
Proof.
  unfold getitem.
  destruct (index_sized i); [| discriminate].
  destruct (_ && _); [| discriminate].
  destruct (l !! _) as [y |] eqn:Hl; [| discriminate].
  intros H. injection H as <-. eapply list_elem_of_lookup_2, Hl.
Qed.

Lemma getitem_0 {A} (x : A) (rest : list A) : getitem (x :: rest) 0 = Return x.
Proof.
  unfold getitem. rewrite (proj2 (index_sized_spec 0)) by lia.
  destruct (Z.ltb_spec 0 (Z.of_nat (length (x :: rest)))) as [_ | H].
  - reflexivity.
  - simpl in H. lia.
Qed.

(** The sum of a list of rationals does not depend on the order. *)
Lemma sum_Permutation (l l' : list Q) :
  l ≡ₚ l' -> (foldr Qplus 0 l == foldr Qplus 0 l')%Q.
Proof.
  induction 1 as [| x l l' _ IH | x y l | l l' l'' _ IH1 _ IH2]; simpl.
  - reflexivity.
  - rewrite IH. reflexivity.
  - ring.
  - rewrite IH1. exact IH2.
Qed.

(** A dict comprehension over three distinct keys. *)
Lemma dict_comp_3 {V} (k1 k2 k3 : string) (v1 v2 v3 : V) :
  dict_comp [(k1, v1); (k2, v2); (k3, v3)]
  = <[k3 := v3]> (<[k2 := v2]> (<[k1 := v1]> ∅)).
Proof. reflexivity. Qed.

Lemma sum_values_3 (k1 k2 k3 : string) (v1 v2 v3 : Q) :
  k1 <> k2 -> k1 <> k3 -> k2 <> k3 ->
  (sum_values (dict_comp [(k1, v1); (k2, v2); (k3, v3)]) == v1 + v2 + v3)%Q.
Proof.
  intros H12 H13 H23. rewrite dict_comp_3. unfold sum_values.
  assert (Hperm : map_to_list (<[k3 := v3]> (<[k2 := v2]> (<[k1 := v1]> (∅ : gmap string Q))))
                  ≡ₚ [(k3, v3); (k2, v2); (k1, v1)]).
  { rewrite map_to_list_insert by (by simplify_map_eq).
    rewrite map_to_list_insert by (by simplify_map_eq).
    rewrite map_to_list_insert by (by simplify_map_eq).
    by rewrite map_to_list_empty. }
  rewrite (sum_Permutation _ _ (fmap_Permutation snd _ _ Hperm)).
  simpl. ring.
Qed.

End PyFacts.

(** ** Properties of [src/api/app.py] *)

Module AppProps.
Import Py PyFacts App.
Local Open Scope py_scope.

(** *** Vocabulary of the specification *)

(** The error taxonomy: request validation (422) and the batch limit
    (400) are validation errors, 503 is service-unavailable, and a 500
    raised by a handler is an inference error. *)
Inductive ErrorKind : Type :=
| ValidationError
| ServiceUnavailable
| InferenceError
| InternalError.

Definition error_kind (e : exn) : ErrorKind :=
  match e with
  | RequestValidationError _ => ValidationError
  | HTTPException 400 _ => ValidationError
  | HTTPException 503 _ => ServiceUnavailable
  | HTTPException 500 _ => InferenceError
  | _ => InternalError
  end.

(** A sample is valid when each of its four fields lies in [0, 10]. *)
Definition in_range (x : Q) : Prop := (0 <= x)%Q /\ (x <= 10)%Q.

Definition valid_sample (s : IrisFeatures) : Prop :=
  in_range (sepal_length s) /\ in_range (sepal_width s)
  /\ in_range (petal_length s) /\ in_range (petal_width s).

(** The floating-point tolerance of the specification, 1e-6. *)
Definition tolerance : Q := 1 # 1000000.

(** A probability distribution over the three classes. *)
Record distribution (ps : list Q) : Prop := {
  dist_length : length ps = 3%nat;
  dist_range : Forall (fun p => (0 <= p)%Q /\ (p <= 1)%Q) ps;
  dist_total : (Qabs (foldr Qplus 0 ps - 1) <= tolerance)%Q
}.

(** The model artifact of the specification: on the array of a valid
    sample, class prediction gives one of the three class indices, and
    the probability query gives a distribution over the three classes. *)
Record model_artifact (m : Model) : Prop := {
  artifact_predict : forall s, valid_sample s ->
    exists id rest,
      model_predict m (feature_array s) = Return (id :: rest) /\ 0 <= id < 3;
  artifact_proba : forall s, valid_sample s ->
    exists ps rest,
      model_predict_proba m (feature_array s) = Return (ps :: rest)
      /\ distribution ps
}.

(** [c] is the largest value of the dict [d]. *)
Definition max_value (c : Q) (d : gmap string Q) : Prop :=
  (exists k, d !! k = Some c) /\ forall k v, d !! k = Some v -> (v <= c)%Q.

(** [health()]: readiness as a boolean, true when [GET /health] answers
    200 and false when it answers 503. *)
Definition health (w : World) : bool := returned (health_check w).1.

(** *** Validation *)

Lemma field_ok_spec (x : Q) : field_ok x = true <-> in_range x.
Proof.
  unfold field_ok, in_range. rewrite andb_true_iff, !Qle_bool_iff. reflexivity.
Qed.

Lemma IrisFeatures_validate_spec (s : IrisFeatures) :
  (valid_sample s /\ IrisFeatures_validate s = Return s)
  \/ (~ valid_sample s /\ exists d,
        IrisFeatures_validate s = Raise (RequestValidationError d)).
Proof.
  unfold IrisFeatures_validate, valid_sample.
  rewrite <- !field_ok_spec.
  destruct (field_ok (sepal_length s)), (field_ok (sepal_width s)),
    (field_ok (petal_length s)), (field_ok (petal_width s)); simpl;
    first [ left; split; [tauto | reflexivity]
          | right; split; [intuition discriminate | eauto] ].
Qed.

Lemma BatchIrisFeatures_validate_spec (body : list IrisFeatures) :
  (Forall valid_sample body /\ BatchIrisFeatures_validate body = Return body)
  \/ (~ Forall valid_sample body /\ exists d,
        BatchIrisFeatures_validate body = Raise (RequestValidationError d)).
Proof.
  induction body as [| s rest IH]; simpl.
  - left. split; [constructor | reflexivity].
  - destruct (IrisFeatures_validate_spec s) as [[Hv ->] | [Hv [d ->]]].
    + destruct IH as [[Hr ->] | [Hr [d ->]]].
      * left. split; [constructor; assumption | reflexivity].
      * right. split; [| eauto]. intros H. inversion H; subst. tauto.
    + right. split; [| eauto]. intros H. inversion H; subst. tauto.
Qed.

(** *** One inference *)

(** What the specification promises of a prediction result. *)
Record well_formed (r : PredictionResponse) : Prop := {
  wf_name : prediction r ∈ target_names;
  wf_index : target_names !! Z.to_nat (prediction_id r) = Some (prediction r);
  wf_confidence : (0 <= confidence r)%Q /\ (confidence r <= 1)%Q;
  wf_max : max_value (confidence r) (probabilities r);
  wf_keys : dom (probabilities r) = list_to_set target_names;
  wf_total : (Qabs (sum_values (probabilities r) - 1) <= tolerance)%Q
}.

(** The world after the two model calls of one inference. *)
Definition after_inference (s : IrisFeatures) (w : World) : World :=
  log_call (CallPredictProba (feature_array s))
    (log_call (CallPredict (feature_array s)) w).

Lemma predict_one_returns (m : Model) (s : IrisFeatures) (w : World)
    (id : Z) (rest_ids : list Z) (name : string)
    (ps : list Q) (rest_ps : list (list Q)) (c : Q) :
  model_predict m (feature_array s) = Return (id :: rest_ids) ->
  getitem target_names id = Return name ->
  model_predict_proba m (feature_array s) = Return (ps :: rest_ps) ->
  max ps = Return c ->
  predict_one m s w
  = (Return {| prediction := name; prediction_id := id; confidence := c;
               probabilities := dict_comp (zip target_names ps) |},
     after_inference s w).
Proof.
  intros Hid Hname Hps Hc.
  unfold predict_one, call_predict, call_predict_proba, bind, modify, lift, ret.
  rewrite Hid. cbn [ndarray_first]. rewrite Hname.
  rewrite Hps. cbn [ndarray_first]. rewrite Hc. reflexivity.
Qed.

Lemma distribution_response (id : Z) (name : string) (ps : list Q) (c : Q) :
  0 <= id < 3 ->
  getitem target_names id = Return name ->
  distribution ps ->
  max ps = Return c ->
  well_formed {| prediction := name; prediction_id := id; confidence := c;
                 probabilities := dict_comp (zip target_names ps) |}.
Proof.
  intros Hid Hname [Hlen Hrange Htotal] Hc.
  destruct ps as [| p0 [| p1 [| p2 [| ? ?]]]]; try discriminate Hlen.
  apply max_spec in Hc as [Hin Hupper].
  assert (Hd : dict_comp (zip target_names [p0; p1; p2])
               = <["virginica" := p2]> (<["versicolor" := p1]>
                   (<["setosa" := p0]> ∅))) by reflexivity.
  split; cbn [prediction prediction_id confidence probabilities].
  - eapply getitem_elem, Hname.
  - destruct (getitem_in_range target_names id) as (x & Hx & Hl);
      [simpl; lia | simpl; lia | congruence].
  - rewrite Forall_forall in Hrange. apply Hrange, Hin.
  - rewrite Hd. split.
    + apply elem_of_cons in Hin as [-> | Hin]; [exists "setosa"; reflexivity |].
      apply elem_of_cons in Hin as [-> | Hin]; [exists "versicolor"; reflexivity |].
      apply elem_of_cons in Hin as [-> | Hin]; [exists "virginica"; reflexivity |].
      inversion Hin.
    + intros k v Hk. rewrite Forall_forall in Hupper. apply Hupper.
      destruct (decide (k = "virginica")) as [-> | ?].
      { rewrite lookup_insert_eq in Hk. injection Hk as <-.
        do 2 apply list_elem_of_further. apply list_elem_of_here. }
      rewrite lookup_insert_ne in Hk by done.
      destruct (decide (k = "versicolor")) as [-> | ?].
      { rewrite lookup_insert_eq in Hk. injection Hk as <-.
        apply list_elem_of_further, list_elem_of_here. }
      rewrite lookup_insert_ne in Hk by done.
      destruct (decide (k = "setosa")) as [-> | ?].
      { rewrite lookup_insert_eq in Hk. injection Hk as <-.
        apply list_elem_of_here. }
      rewrite lookup_insert_ne in Hk by done. inversion Hk.
  - rewrite Hd. unfold target_names. simpl.
    rewrite !dom_insert_L, dom_empty_L.
    apply set_eq. intros k. rewrite !elem_of_union, !elem_of_singleton.
    rewrite elem_of_empty. tauto.
  - unfold target_names. simpl zip.
    rewrite sum_values_3 by done.
    simpl in Htotal.
    assert (Heq : (p0 + p1 + p2 == p0 + (p1 + (p2 + 0)))%Q) by ring.
    rewrite Heq. exact Htotal.
Qed.

(** Under the artifact contract, one inference on a valid sample returns
    a well-formed result. *)
Lemma predict_one_artifact (m : Model) (s : IrisFeatures) (w : World) :
  model_artifact m -> valid_sample s ->
  exists r, predict_one m s w = (Return r, after_inference s w) /\ well_formed r.
Proof.
  intros [Hpredict Hproba] Hs.
  destruct (Hpredict s Hs) as (id & rest_ids & Hid & Hrange).
  destruct (Hproba s Hs) as (ps & rest_ps & Hps & Hdist).
  destruct (getitem_in_range target_names id) as (name & Hname & _);
    [simpl; lia | simpl; lia |].
  assert (exists c, max ps = Return c) as [c Hc].
  { destruct Hdist as [Hlen _ _]. destruct ps; [discriminate | apply max_nonempty]. }
  eexists. split.
  - eapply predict_one_returns; eassumption.
  - eapply distribution_response; eassumption.
Qed.

(** The value of one inference does not depend on the world it runs in,
    and an inference changes nothing but the log of model calls. *)
Lemma predict_one_value (m : Model) (s : IrisFeatures) (w w' : World) :
  (predict_one m s w).1 = (predict_one m s w').1.
Proof.
  unfold predict_one, call_predict, call_predict_proba, bind, modify, lift, ret.
  repeat (match goal with
          | |- context [match ?r with Return _ => _ | Raise _ => _ end] =>
              destruct r; simpl
          end); reflexivity.
Qed.

(** *** Concrete inputs *)

Ltac q_le := apply Qle_bool_iff; vm_compute; reflexivity.

(** The canonical easy case of the specification. *)
Definition setosa_sample : IrisFeatures :=
  {| sepal_length := 51 # 10; sepal_width := 35 # 10;
     petal_length := 14 # 10; petal_width := 2 # 10 |}.

(** [sepal_length = 15] *)
Definition long_sepal_sample : IrisFeatures :=
  {| sepal_length := 15; sepal_width := 35 # 10;
     petal_length := 14 # 10; petal_width := 2 # 10 |}.

Definition boundary_sample : IrisFeatures :=
  {| sepal_length := 0; sepal_width := 10;
     petal_length := 10; petal_width := 0 |}.

(** A classifier to run the service on: a decision stump on the petal
    length, with a fixed distribution per leaf. *)
Definition stump_class (row : list Q) : Z :=
  match row with
  | [_; _; pl; _] =>
      if Qle_bool pl (5 # 2) then 0 else if Qle_bool pl (19 # 4) then 1 else 2
  | _ => 0
  end.

Definition stump_proba (row : list Q) : list Q :=
  match stump_class row with
  | 0 => [9 # 10; 1 # 10; 0]%Q
  | 1 => [1 # 20; 9 # 10; 1 # 20]%Q
  | _ => [0; 1 # 10; 9 # 10]%Q
  end.

Definition stump : Model :=
  {| model_predict := fun a => Return (stump_class <$> a);
     model_predict_proba := fun a => Return (stump_proba <$> a) |}.

Definition world_without_model : World :=
  {| model := None; fs := ∅; inference_log := [] |}.

Definition world_with_stump : World :=
  {| model := Some stump; fs := ∅; inference_log := [] |}.

Lemma setosa_sample_valid : valid_sample setosa_sample.
Proof. repeat split; q_le. Qed.

Lemma stump_artifact : model_artifact stump.
Proof.
  split; intros s _; unfold feature_array; simpl.
  - eexists _, _. split; [reflexivity |].
    destruct (Qle_bool (petal_length s) (5 # 2)); [lia |].
    destruct (Qle_bool (petal_length s) (19 # 4)); lia.
  - eexists _, _. split; [reflexivity |].
    unfold stump_proba, stump_class.
    destruct (Qle_bool (petal_length s) (5 # 2));
      [| destruct (Qle_bool (petal_length s) (19 # 4))];
      (split; [reflexivity | repeat constructor; q_le | q_le]).
Qed.

(** *** [predict] *)

(** C1. For every valid sample, [predict], run with a loaded model that
    honours the artifact contract, returns a result whose class name is
    the entry of the 3-name table at the predicted index, whose
    confidence lies in [0, 1] and is the largest value of the returned
    probability dict, and whose probability dict is keyed by the three
    class names and sums to 1 within the tolerance. *)
Theorem predict_valid_sample (m : Model) (w : World) (s : IrisFeatures) :
  model w = Some m -> model_artifact m -> valid_sample s ->
  exists r,
    post_predict s w = (Return r, after_inference s w)
    /\ predict s w = (Return r, after_inference s w)
    /\ well_formed r.
Proof.
  intros Hm Hart Hs.
  destruct (predict_one_artifact m s w Hart Hs) as (r & Hr & Hwf).
  assert (Hp : predict s w = (Return r, after_inference s w)).
  { unfold predict, bind, get, try_except. rewrite Hm, Hr. reflexivity. }
  exists r. split; [| split; assumption].
  unfold post_predict, bind, lift.
  destruct (IrisFeatures_validate_spec s) as [[_ ->] | [Hbad _]]; [exact Hp | tauto].
Qed.

Lemma predict_valid_sample_witness :
  model world_with_stump = Some stump /\ model_artifact stump
  /\ valid_sample setosa_sample
  /\ exists r,
       post_predict setosa_sample world_with_stump
       = (Return r, after_inference setosa_sample world_with_stump)
       /\ predict setosa_sample world_with_stump
          = (Return r, after_inference setosa_sample world_with_stump)
       /\ well_formed r.
Proof.
  split; [reflexivity |]. split; [apply stump_artifact |].
  split; [apply setosa_sample_valid |].
  apply (predict_valid_sample stump world_with_stump setosa_sample).
  - reflexivity.
  - apply stump_artifact.
  - apply setosa_sample_valid.
Defined.

(** C2. A sample with a field outside [0, 10] is rejected with a
    validation error before [predict] runs: the world, and with it the
    log of model calls, is unchanged. A sample whose fields are all 0
    or 10 passes validation and reaches [predict]. *)
Theorem out_of_range_rejected (body : IrisFeatures) (w : World) :
  (~ in_range (sepal_length body) \/ ~ in_range (sepal_width body)
   \/ ~ in_range (petal_length body) \/ ~ in_range (petal_width body) ->
   exists d,
     post_predict body w = (Raise (RequestValidationError d), w)
     /\ error_kind (RequestValidationError d) = ValidationError
     /\ inference_log (post_predict body w).2 = inference_log w)
  /\ (Forall (fun x => (x == 0)%Q \/ (x == 10)%Q)
        [sepal_length body; sepal_width body; petal_length body; petal_width body] ->
      IrisFeatures_validate body = Return body
      /\ post_predict body w = predict body w).
Proof.
  split.
  - intros Hout.
    destruct (IrisFeatures_validate_spec body) as [[Hv _] | [_ [d Hd]]].
    + unfold valid_sample in Hv. tauto.
    + exists d. unfold post_predict, bind, lift. rewrite Hd. simpl. auto.
  - intros Hb.
    assert (Hv : valid_sample body).
    { rewrite !Forall_cons in Hb. destruct Hb as (H1 & H2 & H3 & H4 & _).
      unfold valid_sample, in_range.
      repeat split;
        match goal with
        | H : (?x == 0)%Q \/ (?x == 10)%Q |- (_ <= ?x)%Q =>
            destruct H as [-> | ->]; q_le
        | H : (?x == 0)%Q \/ (?x == 10)%Q |- (?x <= _)%Q =>
            destruct H as [-> | ->]; q_le
        end. }
    destruct (IrisFeatures_validate_spec body) as [[_ Hok] | [Hbad _]]; [| tauto].
    split; [exact Hok |].
    unfold post_predict, bind, lift. rewrite Hok. reflexivity.
Qed.

Lemma out_of_range_rejected_witness :
  (~ in_range (sepal_length long_sepal_sample)
   /\ exists d,
        post_predict long_sepal_sample world_with_stump
        = (Raise (RequestValidationError d), world_with_stump)
        /\ error_kind (RequestValidationError d) = ValidationError
        /\ inference_log (post_predict long_sepal_sample world_with_stump).2
           = inference_log world_with_stump)
  /\ IrisFeatures_validate boundary_sample = Return boundary_sample.
Proof.
  assert (Hout : ~ in_range (sepal_length long_sepal_sample)).
  { intros [_ H]. apply Qle_bool_iff in H. vm_compute in H. discriminate. }
  split; [split; [exact Hout |] |].
  - apply (proj1 (out_of_range_rejected long_sepal_sample world_with_stump)).
    left. exact Hout.
  - apply (proj2 (out_of_range_rejected boundary_sample world_with_stump)).
    repeat constructor; (left; reflexivity) || (right; reflexivity).
Defined.

(** *** [load_model] *)

(** The candidate [p] exists and deserializes without error: the model
    it holds, if so. *)
Definition deserializes (f : gmap string File) (p : string) : option Model :=
  match f !! p with
  | Some (JoblibFile m) => Some m
  | _ => None
  end.

(** The first candidate, in list order, that exists and deserializes. *)
Fixpoint first_loadable (f : gmap string File) (paths : list string)
    : option Model :=
  match paths with
  | [] => None
  | p :: rest =>
      match deserializes f p with
      | Some m => Some m
      | None => first_loadable f rest
      end
  end.

(** Persisting as [load_model] does it: create the directory, then save
    the model; the filesystem the save leaves, or the first exception. *)
Definition persist (env : Env) (m : Model) (f : gmap string File)
    : result (gmap string File) :=
  match makedirs env "models" f with
  | Raise e => Raise e
  | Return _ => iris_save env m "models/iris_model.joblib" f
  end.

(** The [try] block of [load_model] as a whole: train with the default
    parameters, create the directory, save the model; the fitted model
    and the filesystem the save leaves, or the first exception. *)
Definition fresh_training (env : Env) (f : gmap string File)
    : result (Model * gmap string File) :=
  match iris_train env with
  | Raise e => Raise e
  | Return m =>
      match makedirs env "models" f with
      | Raise e => Raise e
      | Return _ =>
          match iris_save env m "models/iris_model.joblib" f with
          | Raise e => Raise e
          | Return f' => Return (m, f')
          end
      end
  end.

Lemma first_loadable_Some (f : gmap string File) (paths : list string)
    (i : nat) (p : string) (m : Model) :
  paths !! i = Some p ->
  deserializes f p = Some m ->
  (forall j q, (j < i)%nat -> paths !! j = Some q -> deserializes f q = None) ->
  first_loadable f paths = Some m.
Proof.
  revert i. induction paths as [| q rest IH]; intros i Hi Hp Hbefore.
  - discriminate.
  - destruct i as [| i]; simpl in *.
    + injection Hi as ->. rewrite Hp. reflexivity.
    + rewrite (Hbefore 0%nat q) by (lia || reflexivity).
      apply (IH i); [assumption.. |].
      intros j q' Hj Hq'. apply (Hbefore (S j) q'); [lia | exact Hq'].
Qed.

Lemma first_loadable_None (f : gmap string File) (paths : list string) :
  (forall q, q ∈ paths -> deserializes f q = None) ->
  first_loadable f paths = None.
Proof.
  induction paths as [| q rest IH]; intros Hall; simpl; [reflexivity |].
  rewrite Hall by apply list_elem_of_here.
  apply IH. intros q' Hq'. apply Hall, list_elem_of_further, Hq'.
Qed.

Lemma first_loadable_None_inv (f : gmap string File) (paths : list string) :
  first_loadable f paths = None ->
  forall q, q ∈ paths -> deserializes f q = None.
Proof.
  induction paths as [| p rest IH]; simpl; intros Hnone q Hq.
  - inversion Hq.
  - destruct (deserializes f p) eqn:Hp; [discriminate |].
    apply elem_of_cons in Hq as [-> | Hq]; [exact Hp | apply IH; assumption].
Qed.

(** The loop stops at the first candidate that loads, installs its
    model and changes nothing else; when none loads it changes nothing. *)
Lemma load_model_loop_spec (paths : list string) (w : World) :
  load_model_loop paths w
  = match first_loadable (fs w) paths with
    | Some m => (Return true, set_model (Some m) w)
    | None => (Return false, w)
    end.
Proof.
  induction paths as [| p rest IH]; simpl; [reflexivity |].
  unfold path_exists, joblib_load, try_except, deserializes.
  unfold bind, get, ret, modify, raise.
  destruct (fs w !! p) as [[m | c] |] eqn:Hp; simpl.
  - rewrite Hp. reflexivity.
  - rewrite Hp. exact IH.
  - exact IH.
Qed.

Lemma load_model_spec (env : Env) (w : World) :
  load_model env w
  = match first_loadable (fs w) model_paths with
    | Some m => (Return tt, set_model (Some m) w)
    | None =>
        match fresh_training env (fs w) with
        | Return (m, f) => (Return tt, set_model (Some m) (set_fs f w))
        | Raise _ => (Raise (RuntimeError "Could not load or train model"), w)
        end
    end.
Proof.
  unfold load_model, bind. rewrite load_model_loop_spec.
  destruct (first_loadable (fs w) model_paths) as [m |]; [reflexivity |].
  unfold fresh_training, try_except, bind, lift, get, modify, raise, ret.
  destruct (iris_train env) as [m |]; [| reflexivity].
  destruct (makedirs env "models" (fs w)); [| reflexivity].
  destruct (iris_save env m "models/iris_model.joblib" (fs w)); reflexivity.
Qed.

(** The [try] block is training followed by persisting. *)
Lemma fresh_training_persist (env : Env) (f : gmap string File) :
  fresh_training env f
  = match iris_train env with
    | Raise e => Raise e
    | Return m =>
        match persist env m f with
        | Raise e => Raise e
        | Return f' => Return (m, f')
        end
    end.
Proof.
  unfold fresh_training, persist.
  destruct (iris_train env) as [m |]; [| reflexivity].
  destruct (makedirs env "models" f); [| reflexivity].
  destruct (iris_save env m "models/iris_model.joblib" f); reflexivity.
Qed.

(** C5, amended. At startup [load_model] uses the first candidate path,
    in the fixed order, that exists and deserializes without error, and
    touches nothing else. If no candidate does, it trains a model with
    the default parameters, persists it and uses it, leaving the
    filesystem as the save left it. It raises its fatal [RuntimeError]
    exactly when no candidate loads and either training fails or training
    succeeds and persisting the trained model fails; then no model is
    installed and nothing has changed. *)
Theorem load_model_startup (env : Env) (w : World) :
  model_paths = ["models/iris_model.joblib"; "/app/models/iris_model.joblib";
                 "iris_model.joblib"]
  /\ (forall i p m,
        model_paths !! i = Some p ->
        deserializes (fs w) p = Some m ->
        (forall j q, (j < i)%nat -> model_paths !! j = Some q ->
                     deserializes (fs w) q = None) ->
        load_model env w = (Return tt, set_model (Some m) w))
  /\ (forall m f,
        (forall q, q ∈ model_paths -> deserializes (fs w) q = None) ->
        iris_train env = Return m ->
        persist env m (fs w) = Return f ->
        load_model env w = (Return tt, set_model (Some m) (set_fs f w)))
  /\ (returned (load_model env w).1 = false <->
      (forall q, q ∈ model_paths -> deserializes (fs w) q = None)
      /\ (returned (iris_train env) = false
          \/ exists m, iris_train env = Return m
                       /\ returned (persist env m (fs w)) = false))
  /\ (returned (load_model env w).1 = false ->
      load_model env w
      = (Raise (RuntimeError "Could not load or train model"), w)).
Proof.
  split; [reflexivity |]. rewrite load_model_spec, fresh_training_persist.
  split; [| split; [| split]].
  - intros i p m Hi Hp Hbefore.
    rewrite (first_loadable_Some _ _ i p m Hi Hp Hbefore). reflexivity.
  - intros m f Hnone Htrain Hsave.
    rewrite (first_loadable_None _ _ Hnone), Htrain, Hsave. reflexivity.
  - destruct (first_loadable (fs w) model_paths) as [m |] eqn:Hfirst.
    + split; [discriminate |]. intros [Hnone _].
      rewrite (first_loadable_None _ _ Hnone) in Hfirst. discriminate.
    + destruct (iris_train env) as [m | e]; simpl.
      * destruct (persist env m (fs w)) as [f | e] eqn:Hsave; simpl.
        -- split; [discriminate |].
           intros [_ [H | (m' & Hm' & H)]]; [discriminate |].
           injection Hm' as <-. rewrite Hsave in H. discriminate.
        -- split; [| reflexivity]. intros _.
           split; [apply first_loadable_None_inv, Hfirst |].
           right. exists m. rewrite Hsave. split; reflexivity.
      * split; [| reflexivity]. intros _.
        split; [apply first_loadable_None_inv, Hfirst |]. left. reflexivity.
  - destruct (first_loadable (fs w) model_paths) as [m |]; [discriminate |].
    destruct (iris_train env) as [m |]; [| reflexivity].
    destruct (persist env m (fs w)) as [f |]; [discriminate | reflexivity].
Qed.

(** Environments and filesystems to run [load_model] in. *)
Definition env_trains : Env :=
  {| iris_train := Return stump;
     makedirs := fun _ _ => Return tt;
     iris_save := fun m p f => Return (<[p := JoblibFile m]> f) |}.

Definition env_read_only : Env :=
  {| iris_train := Return stump;
     makedirs := fun _ _ => Raise (OtherException "Read-only file system");
     iris_save := fun _ _ _ => Raise (OtherException "Read-only file system") |}.

Definition env_cannot_train : Env :=
  {| iris_train := Raise (OtherException "No module named sklearn");
     makedirs := fun _ _ => Return tt;
     iris_save := fun m p f => Return (<[p := JoblibFile m]> f) |}.

(** The first candidate exists but is corrupt, the second holds a model. *)
Definition world_second_candidate : World :=
  {| model := None;
     fs := <["models/iris_model.joblib" := OtherFile "garbage"]>
             (<["/app/models/iris_model.joblib" := JoblibFile stump]> ∅);
     inference_log := [] |}.

Lemma load_model_startup_witness :
  load_model env_cannot_train world_second_candidate
  = (Return tt, set_model (Some stump) world_second_candidate).
Proof.
  apply (proj1 (proj2 (load_model_startup env_cannot_train world_second_candidate))
           1%nat "/app/models/iris_model.joblib" stump).
  - reflexivity.
  - reflexivity.
  - intros j q Hj Hq. destruct j as [| j]; [| lia].
    injection Hq as <-. reflexivity.
Defined.

(** With no candidate on disk the model is trained, saved and used. *)
Example load_model_trains :
  load_model env_trains world_without_model
  = (Return tt,
     {| model := Some stump;
        fs := <["models/iris_model.joblib" := JoblibFile stump]> ∅;
        inference_log := [] |}).
Proof. reflexivity. Qed.

(** C5 as stated fails here: no candidate is on disk, training succeeds,
    and startup is fatal all the same, because the trained model cannot
    be persisted. Fatal failure does not need training to fail. *)
Lemma fatal_though_training_succeeded :
  first_loadable (fs world_without_model) model_paths = None
  /\ iris_train env_read_only = Return stump
  /\ returned (iris_train env_read_only) = true
  /\ persist env_read_only stump (fs world_without_model)
     = Raise (OtherException "Read-only file system")
  /\ load_model env_read_only world_without_model
     = (Raise (RuntimeError "Could not load or train model"), world_without_model).
Proof. repeat split. Qed.

Example load_model_read_only_disk :
  load_model env_read_only world_without_model
  = (Raise (RuntimeError "Could not load or train model"), world_without_model).
Proof. reflexivity. Qed.

Example load_model_cannot_train :
  load_model env_cannot_train world_without_model
  = (Raise (RuntimeError "Could not load or train model"), world_without_model).
Proof. reflexivity. Qed.

(** [load_model] returns only with a model installed. *)
Lemma load_model_installs (env : Env) (w w' : World) :
  load_model env w = (Return tt, w') -> is_Some (model w').
Proof.
  rewrite load_model_spec.
  destruct (first_loadable (fs w) model_paths) as [m |].
  - intros H. injection H as <-. simpl. eauto.
  - destruct (fresh_training env (fs w)) as [[m f] |]; [| discriminate].
    intros H. injection H as <-. simpl. eauto.
Qed.

(** *** [health_check] *)

Lemma health_check_spec (w : World) :
  health_check w
  = match model w with
    | Some _ => (Return {| status := "healthy"; model_loaded := true;
                           timestamp := "2024-01-01T00:00:00Z" |}, w)
    | None => (Raise (HTTPException 503 "Model not loaded"), w)
    end.
Proof.
  unfold health_check, bind, get, ret, raise.
  destruct (model w); reflexivity.
Qed.

(** C4. [health] is true exactly when a model is loaded: false (a 503)
    when none is, true in every state that [load_model] returns in,
    whether it loaded a file or trained. The body it then returns
    reports [model_loaded = true]. [health_check] leaves the world as it
    found it. *)
Theorem health_iff_model_loaded (env : Env) (w w' : World) :
  (health w = true <-> is_Some (model w))
  /\ (model w = None ->
      health w = false
      /\ health_check w = (Raise (HTTPException 503 "Model not loaded"), w))
  /\ (load_model env w = (Return tt, w') -> health w' = true)
  /\ (forall r, (health_check w).1 = Return r -> model_loaded r = true)
  /\ (health_check w).2 = w.
Proof.
  unfold health. rewrite !health_check_spec.
  split; [| split; [| split; [| split]]].
  - destruct (model w); simpl; split; eauto; try discriminate.
    intros [m Hm]. discriminate.
  - intros ->. split; reflexivity.
  - intros Hload. apply load_model_installs in Hload as [m Hm].
    rewrite Hm. reflexivity.
  - intros r. destruct (model w); simpl; intros H; [| discriminate].
    injection H as <-. reflexivity.
  - destruct (model w); reflexivity.
Qed.

Lemma health_iff_model_loaded_witness :
  health world_without_model = false
  /\ health (set_model (Some stump) world_second_candidate) = true.
Proof.
  split.
  - apply (proj1 (proj2 (health_iff_model_loaded env_trains world_without_model
                           world_without_model))).
    reflexivity.
  - apply (proj1 (proj2 (proj2 (health_iff_model_loaded env_cannot_train
                                  world_second_candidate
                                  (set_model (Some stump) world_second_candidate))))).
    reflexivity.
Defined.

(** C9. Whenever a model is loaded [health_check] succeeds, and whenever
    it succeeds the timestamp of its body is the constant
    "2024-01-01T00:00:00Z", whatever the state. *)
Theorem health_timestamp_constant (w : World) :
  (is_Some (model w) ->
   exists r, health_check w = (Return r, w)
             /\ timestamp r = "2024-01-01T00:00:00Z")
  /\ (forall r, (health_check w).1 = Return r ->
                timestamp r = "2024-01-01T00:00:00Z").
Proof.
  rewrite health_check_spec. split.
  - intros [m ->]. eexists. split; reflexivity.
  - intros r. destruct (model w); simpl; intros H; [| discriminate].
    injection H as <-. reflexivity.
Qed.

Lemma health_timestamp_constant_witness :
  exists r, health_check world_with_stump = (Return r, world_with_stump)
            /\ timestamp r = "2024-01-01T00:00:00Z".
Proof.
  apply (proj1 (health_timestamp_constant world_with_stump)).
  exists stump. reflexivity.
Defined.

(** *** [predict_batch] *)

(** The world after the inferences of a batch, sample by sample. *)
Definition after_batch (samples : list IrisFeatures) (w : World) : World :=
  foldl (fun w s => after_inference s w) w samples.

Lemma predict_returns (m : Model) (s : IrisFeatures) (w : World)
    (r : PredictionResponse) :
  model w = Some m ->
  (predict_one m s w).1 = Return r ->
  (predict s w).1 = Return r.
Proof.
  intros Hm Hr. unfold predict, bind, get, try_except. rewrite Hm.
  destruct (predict_one m s w) as [[r' | e] w']; simpl in *; congruence.
Qed.

Lemma predict_batch_loop_artifact (m : Model) (samples : list IrisFeatures) :
  model_artifact m -> Forall valid_sample samples ->
  forall acc w, exists rs,
    predict_batch_loop m samples acc w = (Return (acc ++ rs), after_batch samples w)
    /\ Forall2 (fun s r => forall w0, (predict_one m s w0).1 = Return r) samples rs.
Proof.
  intros Hart. induction 1 as [| s rest Hs _ IH]; intros acc w; simpl.
  - exists []. rewrite app_nil_r. split; [reflexivity | constructor].
  - destruct (predict_one_artifact m s w Hart Hs) as (r & Hr & _).
    destruct (IH (acc ++ [r]) (after_inference s w)) as (rs & Hrs & Hall).
    exists (r :: rs). split.
    + unfold bind. rewrite Hr, Hrs, <- app_assoc. reflexivity.
    + constructor; [| exact Hall].
      intros w0. rewrite (predict_one_value m s w0 w), Hr. reflexivity.
Qed.

(** 101 copies of the canonical sample. *)
Definition batch_of_101 : list IrisFeatures := replicate 101 setosa_sample.

(** C3 as stated fails here: a batch of 101 valid samples sent while no
    model is loaded is answered with 503, service unavailable, not with
    a validation error. *)
Lemma oversized_batch_without_model :
  (100 < length batch_of_101)%nat
  /\ BatchIrisFeatures_validate batch_of_101 = Return batch_of_101
  /\ post_predict_batch batch_of_101 world_without_model
     = (Raise (HTTPException 503 "Model not loaded"), world_without_model)
  /\ error_kind (HTTPException 503 "Model not loaded") <> ValidationError.
Proof.
  split; [vm_compute; lia |].
  split; [vm_compute; reflexivity |].
  split; [vm_compute; reflexivity | discriminate].
Qed.

(** A classifier saved before it was fitted: every query raises. *)
Definition unfitted_model : Model :=
  {| model_predict := fun _ =>
       Raise (OtherException "This RandomForestClassifier instance is not fitted yet.");
     model_predict_proba := fun _ =>
       Raise (OtherException "This RandomForestClassifier instance is not fitted yet.") |}.

(** A loaded model is not enough for the second half of C3: with the
    unfitted classifier loaded, a batch of one valid sample is answered
    with 500 and no result. *)
Example small_batch_on_unfitted_model :
  Forall valid_sample [setosa_sample]
  /\ post_predict_batch [setosa_sample]
       {| model := Some unfitted_model; fs := ∅; inference_log := [] |}
     = (Raise (HTTPException 500
                 "Batch prediction failed: This RandomForestClassifier instance is not fitted yet."),
        {| model := Some unfitted_model; fs := ∅;
           inference_log := [CallPredict (feature_array setosa_sample)] |}).
Proof.
  split; [repeat constructor; q_le | vm_compute; reflexivity].
Qed.

(** C3, amended. While a model is loaded: a batch of more than 100
    samples fails with a validation error (the 400 of the batch limit,
    or the 422 of a sample out of range) with the world untouched, so no
    inference has run and no result exists; a batch of at most 100 valid
    samples, if the loaded model honours the artifact contract
    ([model_artifact]: on a valid sample it answers a class index among
    the three classes and a distribution over them), returns one
    result per sample, in input order, each the result [predict] gives
    for that sample, with [batch_size] the number of samples. *)
Theorem predict_batch_limit (m : Model) (w : World) (body : list IrisFeatures) :
  model w = Some m ->
  ((100 < length body)%nat ->
     exists e, post_predict_batch body w = (Raise e, w)
               /\ error_kind e = ValidationError)
  /\ ((length body <= 100)%nat -> model_artifact m -> Forall valid_sample body ->
      exists rs,
        post_predict_batch body w
        = (Return {| predictions := rs; batch_size := Z.of_nat (length body) |},
           after_batch body w)
        /\ length rs = length body
        /\ Forall2 (fun s r => (predict s w).1 = Return r) body rs).
Proof.
  intros Hm. unfold post_predict_batch, bind, lift. split.
  - intros Hlen.
    destruct (BatchIrisFeatures_validate_spec body) as [[_ ->] | [_ [d ->]]].
    + exists (HTTPException 400 "Batch size cannot exceed 100 samples").
      split; [| reflexivity].
      unfold predict_batch, bind, get, raise. rewrite Hm.
      destruct (Z.ltb_spec 100 (Z.of_nat (length body))); [reflexivity | lia].
    + exists (RequestValidationError d). split; reflexivity.
  - intros Hlen Hart Hvalid.
    destruct (BatchIrisFeatures_validate_spec body) as [[_ ->] | [Hbad _]];
      [| tauto].
    destruct (predict_batch_loop_artifact m body Hart Hvalid [] w)
      as (rs & Hrs & Hall).
    pose proof (Forall2_length _ _ _ Hall) as Hlen'.
    exists rs. split; [| split; [congruence |]].
    + unfold predict_batch, bind, get, try_except, ret. rewrite Hm.
      destruct (Z.ltb_spec 100 (Z.of_nat (length body))); [lia |].
      rewrite Hrs. simpl. rewrite Hlen'. reflexivity.
    + eapply Forall2_impl; [exact Hall |].
      intros s r Hr. apply (predict_returns m); [exact Hm | apply Hr].
Qed.

Lemma predict_batch_limit_witness :
  ((100 < length batch_of_101)%nat
   /\ exists e, post_predict_batch batch_of_101 world_with_stump
                = (Raise e, world_with_stump)
                /\ error_kind e = ValidationError)
  /\ exists rs,
       post_predict_batch [setosa_sample; boundary_sample] world_with_stump
       = (Return {| predictions := rs; batch_size := 2 |},
          after_batch [setosa_sample; boundary_sample] world_with_stump)
       /\ length rs = 2%nat
       /\ Forall2 (fun s r => (predict s world_with_stump).1 = Return r)
            [setosa_sample; boundary_sample] rs.
Proof.
  split; [split; [vm_compute; lia |] |].
  - apply (proj1 (predict_batch_limit stump world_with_stump batch_of_101
                    eq_refl)).
    vm_compute; lia.
  - apply (proj2 (predict_batch_limit stump world_with_stump
                    [setosa_sample; boundary_sample] eq_refl)).
    + simpl; lia.
    + apply stump_artifact.
    + repeat constructor; q_le.
Defined.

(** C10. In [predict_batch] the model check comes first: a batch of
    more than 100 samples handled while no model is loaded raises the 503
    of service-unavailable, and the route never answers it with the 400
    of the batch limit. *)
Theorem predict_batch_model_check_first (samples : list IrisFeatures) (w : World) :
  model w = None -> (100 < length samples)%nat ->
  predict_batch samples w = (Raise (HTTPException 503 "Model not loaded"), w)
  /\ error_kind (HTTPException 503 "Model not loaded") = ServiceUnavailable
  /\ (forall d, (predict_batch samples w).1 <> Raise (HTTPException 400 d))
  /\ (forall d, (post_predict_batch samples w).1 <> Raise (HTTPException 400 d)).
Proof.
  intros Hm _.
  assert (H : forall l, predict_batch l w
                        = (Raise (HTTPException 503 "Model not loaded"), w)).
  { intros l. unfold predict_batch, bind, get, raise. rewrite Hm. reflexivity. }
  split; [apply H |]. split; [reflexivity |]. split.
  - intros d. rewrite H. discriminate.
  - intros d. unfold post_predict_batch, bind, lift.
    destruct (BatchIrisFeatures_validate_spec samples) as [[_ ->] | [_ [d' ->]]];
      [rewrite H |]; discriminate.
Qed.

Lemma predict_batch_model_check_first_witness :
  model world_without_model = None /\ (100 < length batch_of_101)%nat
  /\ predict_batch batch_of_101 world_without_model
     = (Raise (HTTPException 503 "Model not loaded"), world_without_model).
Proof.
  split; [reflexivity |]. split; [vm_compute; lia |].
  apply (predict_batch_model_check_first batch_of_101 world_without_model).
  - reflexivity.
  - vm_compute; lia.
Defined.

(** *** [root] *)

Definition world_with_asset : World :=
  {| model := Some stump;
     fs := <["static/index.html" := OtherFile "<html></html>"]> ∅;
     inference_log := [] |}.

(** The [except FileNotFoundError] clause does what it is written for
    when the body raises that exception ... *)
Lemma except_FileNotFoundError_taken (p : string) (w : World) :
  try_except_FileNotFoundError
    (raise (FileNotFoundError p)) (ret (ServeJson api_description)) w
  = (Return (ServeJson api_description), w).
Proof. reflexivity. Qed.

(** ... but constructing the [FileResponse] never raises, so [root]
    returns the file response in every state, and never the JSON
    description. *)
Lemma root_spec (w : World) :
  root w = (Return (ServeFile {| path := "static/index.html" |}), w).
Proof. reflexivity. Qed.

Lemma get_root_spec (w : World) :
  get_root w
  = match fs w !! "static/index.html" with
    | Some (OtherFile content) => (Return (200, FileBody content), w)
    | Some (JoblibFile _) => (Return (200, FileBody "<binary>"), w)
    | None => (Return (500, ErrorBody "Internal Server Error"), w)
    end.
Proof.
  unfold get_root, bind. rewrite root_spec.
  unfold FileResponse_call, bind, get, ret, raise. simpl.
  destruct (fs w !! "static/index.html") as [[m | c] |]; reflexivity.
Qed.

Example get_root_with_asset :
  get_root world_with_asset
  = (Return (200, FileBody "<html></html>"), world_with_asset).
Proof. reflexivity. Qed.

(** C6, at a state without the static asset: [root] returns the file
    response all the same, and sending it fails, so [GET /] is answered
    with 500 and not with the JSON description of the API. *)
Theorem get_root_without_asset :
  fs world_without_model !! "static/index.html" = None
  /\ root world_without_model
     = (Return (ServeFile {| path := "static/index.html" |}), world_without_model)
  /\ get_root world_without_model
     = (Return (500, ErrorBody "Internal Server Error"), world_without_model)
  /\ get_root world_without_model
     <> (Return (200, JsonBody api_description), world_without_model).
Proof.
  split; [reflexivity |]. split; [reflexivity |]. split; [reflexivity |].
  discriminate.
Qed.

End AppProps.

(** ** Properties of [src/data/data_loader.py] *)

Module DataLoaderProps.
Import Py DataLoader.

(** *** Vocabulary *)

(** The number of rows labelled [c]. *)
Definition count (c : Z) (ys : list Z) : nat :=
  length (filter (fun y => y = c) ys).

(** The labels are the three class indices. *)
Definition three_classes (ys : list Z) : Prop :=
  Forall (fun y => 0 <= y < 3) ys.

(** A partition of [part] rows, taken from [n] rows of which [cnt] are
    of some class, holds [actual] rows of that class: within one row of
    the class's share [part * cnt / n]. *)
Definition within_one_row (n cnt part actual : nat) : Prop :=
  Z.abs (Z.of_nat n * Z.of_nat actual - Z.of_nat part * Z.of_nat cnt)
  <= Z.of_nat n.

(** scikit-learn's size rule for a float [test_size] and no
    [train_size]: [n_test = ceil(test_size * n_samples)] in binary64
    arithmetic, and [n_train = n_samples - n_test]. *)
Definition n_test (test_size : float) (n_samples : nat) : option Z :=
  ceil (test_size * float_of_Z (Z.of_nat n_samples))%float.

Example n_test_default_150 : n_test default_test_size 150 = Some 30.
Proof. vm_compute. reflexivity. Qed.

Example n_test_default_100 : n_test default_test_size 100 = Some 20.
Proof. vm_compute. reflexivity. Qed.

Lemma count_app (c : Z) (l1 l2 : list Z) :
  count c (l1 ++ l2) = (count c l1 + count c l2)%nat.
Proof. unfold count. rewrite filter_app, length_app. reflexivity. Qed.

Lemma count_Permutation (c : Z) (l1 l2 : list Z) :
  l1 ≡ₚ l2 -> count c l1 = count c l2.
Proof. intros H. unfold count. rewrite H. reflexivity. Qed.

(** *** The contract of [train_test_split] *)

Section Contract.
Context {Row Ambient : Type}.
Variable train_test_split :
  list Row -> list Z -> float -> option Z -> option (list Z)
  -> M Ambient (Split Row).

(** A call with an integer [random_state] draws from a generator of
    its own, seeded with it: what it returns does not depend on the
    state of the global generator. *)
Definition seeded_contract : Prop :=
  forall X y test_size seed stratify g1 g2,
    (train_test_split X y test_size (Some seed) stratify g1).1
    = (train_test_split X y test_size (Some seed) stratify g2).1.

(** A call with a seed that scikit-learn accepts (an integer from 0 to
    2^32 - 1; it raises [ValueError] for any other) and [stratify=y], on a
    three-class dataset that leaves room for every class in both parts
    (it raises otherwise), returns a split of the rows into [n_train] and
    [n_test] rows, in which every class has within one row of its share
    of the training part. *)
Definition stratified_contract : Prop :=
  forall X y test_size seed g nt,
    0 <= seed < 2 ^ 32 ->
    length X = length y ->
    three_classes y ->
    (forall c, 0 <= c < 3 -> (2 <= count c y)%nat) ->
    n_test test_size (length y) = Some nt ->
    3 <= nt -> 3 <= Z.of_nat (length y) - nt ->
    exists sp g',
      train_test_split X y test_size (Some seed) (Some y) g = (Return sp, g')
      /\ length (X_test sp) = Z.to_nat nt
      /\ length (y_test sp) = Z.to_nat nt
      /\ length (X_train sp) = (length y - Z.to_nat nt)%nat
      /\ length (y_train sp) = (length y - Z.to_nat nt)%nat
      /\ zip (X_train sp) (y_train sp) ++ zip (X_test sp) (y_test sp)
         ≡ₚ zip X y
      /\ forall c, within_one_row (length y) (count c y)
                     (length (y_train sp)) (count c (y_train sp)).

(** C7. [split_data] is deterministic: two calls with the same data,
    the same seed and the same test fraction return the same
    partition, whatever the state of the global random generator at
    each call. *)
Theorem split_data_deterministic (X : list Row) (y : list Z)
    (test_size : float) (random_state : Z) (g1 g2 : Ambient) :
  seeded_contract ->
  (split_data train_test_split X y test_size random_state g1).1
  = (split_data train_test_split X y test_size random_state g2).1.
Proof. intros Hseeded. unfold split_data. apply Hseeded. Qed.

(** The labels of the two parts are, together, the labels of the
    dataset. *)
Lemma split_labels (X : list Row) (y : list Z) (sp : Split Row) :
  length X = length y ->
  length (X_train sp) = length (y_train sp) ->
  length (X_test sp) = length (y_test sp) ->
  zip (X_train sp) (y_train sp) ++ zip (X_test sp) (y_test sp) ≡ₚ zip X y ->
  y_train sp ++ y_test sp ≡ₚ y.
Proof.
  intros HXy Htrain Htest Hperm.
  apply (fmap_Permutation snd) in Hperm.
  rewrite fmap_app, !snd_zip in Hperm by lia. exact Hperm.
Qed.

(** C8. On a dataset of 150 rows over the three classes, [split_data]
    with the default test fraction 0.2 and a seed that scikit-learn
    accepts (0 to 2^32 - 1; 42 is the default) returns 120 training rows
    and 30 test rows, and in each part every class has within one row of
    its share in the whole dataset. *)
Theorem split_data_150_rows (X : list Row) (y : list Z)
    (random_state : Z) (g : Ambient) :
  stratified_contract ->
  0 <= random_state < 2 ^ 32 ->
  length X = 150%nat -> length y = 150%nat ->
  three_classes y ->
  (forall c, 0 <= c < 3 -> (2 <= count c y)%nat) ->
  exists sp g',
    split_data train_test_split X y default_test_size random_state g
    = (Return sp, g')
    /\ length (X_train sp) = 120%nat /\ length (y_train sp) = 120%nat
    /\ length (X_test sp) = 30%nat /\ length (y_test sp) = 30%nat
    /\ forall c,
         within_one_row 150 (count c y) 120 (count c (y_train sp))
         /\ within_one_row 150 (count c y) 30 (count c (y_test sp)).
Proof.
  intros Hcontract Hseed HX Hy Hclasses Hpop. unfold split_data.
  destruct (Hcontract X y default_test_size random_state g 30)
    as (sp & g' & Hsp & HXte & Hyte & HXtr & Hytr & Hperm & Hstrat);
    try assumption; try congruence.
  - rewrite Hy. exact n_test_default_150.
  - lia.
  - rewrite Hy. lia.
  - rewrite Hy in *. change (Z.to_nat 30) with 30%nat in *.
    simpl in HXtr, Hytr.
    exists sp, g'. split; [exact Hsp |].
    split; [exact HXtr |]. split; [exact Hytr |].
    split; [exact HXte |]. split; [exact Hyte |].
    intros c. specialize (Hstrat c). rewrite Hytr in Hstrat.
    split; [exact Hstrat |].
    assert (Hlabels : y_train sp ++ y_test sp ≡ₚ y).
    { apply (split_labels X); [congruence | congruence | congruence | exact Hperm]. }
    apply (count_Permutation c) in Hlabels. rewrite count_app in Hlabels.
    unfold within_one_row in *. lia.
Qed.

End Contract.

(** *** A reference implementation of the contract *)

(** The apportionment of [n_train] training rows to three classes of
    [c0], [c1] and [c2] rows by rounding the cumulative shares down. *)
Definition quota0 (n n_train c0 : nat) : nat := (n_train * c0 / n)%nat.
Definition quota1 (n n_train c0 c1 : nat) : nat :=
  (n_train * (c0 + c1) / n - quota0 n n_train c0)%nat.
Definition quota2 (n n_train c0 c1 : nat) : nat :=
  (n_train - quota0 n n_train c0 - quota1 n n_train c0 c1)%nat.

Lemma quotas (n n_train c0 c1 c2 : nat) :
  (0 < n)%nat -> (n_train <= n)%nat -> (c0 + c1 + c2 = n)%nat ->
  let t0 := quota0 n n_train c0 in
  let t1 := quota1 n n_train c0 c1 in
  let t2 := quota2 n n_train c0 c1 in
  (t0 <= c0 /\ t1 <= c1 /\ t2 <= c2)%nat
  /\ (t0 + t1 + t2 = n_train)%nat
  /\ within_one_row n c0 n_train t0
  /\ within_one_row n c1 n_train t1
  /\ within_one_row n c2 n_train t2.
Proof.
  intros Hn Htr Hsum. unfold quota2, quota1, quota0, within_one_row.
  set (q0 := (n_train * c0 / n)%nat).
  set (q1 := (n_train * (c0 + c1) / n)%nat).
  assert (H0 : (n * q0 <= n_train * c0 < n * q0 + n)%nat).
  { unfold q0. pose proof (Nat.div_mod (n_train * c0) n ltac:(lia)).
    pose proof (Nat.mod_upper_bound (n_train * c0) n ltac:(lia)). lia. }
  assert (H1 : (n * q1 <= n_train * (c0 + c1) < n * q1 + n)%nat).
  { unfold q1. pose proof (Nat.div_mod (n_train * (c0 + c1)) n ltac:(lia)).
    pose proof (Nat.mod_upper_bound (n_train * (c0 + c1)) n ltac:(lia)). lia. }
  clearbody q0 q1.
  assert (Hq01 : (q0 <= q1)%nat) by nia.
  assert (Hq1 : (q1 <= n_train)%nat) by nia.
  cbv zeta.
  repeat split; try nia.
Qed.

Section Reference.
Context {Row : Type}.
Implicit Types rows : list (Row * Z).

(** The rows of class [c], in order. *)
Definition rows_of (c : Z) rows : list (Row * Z) :=
  filter (fun r => r.2 = c) rows.

(** Training and test rows of a stratified split: of each class, the
    first rows up to its quota train, the others test. *)
Definition stratified_parts (n n_train : nat) (labels : list Z) rows
    : list (Row * Z) * list (Row * Z) :=
  let c0 := count 0 labels in
  let c1 := count 1 labels in
  let t0 := quota0 n n_train c0 in
  let t1 := quota1 n n_train c0 c1 in
  let t2 := quota2 n n_train c0 c1 in
  (take t0 (rows_of 0 rows) ++ take t1 (rows_of 1 rows) ++ take t2 (rows_of 2 rows),
   drop t0 (rows_of 0 rows) ++ drop t1 (rows_of 1 rows) ++ drop t2 (rows_of 2 rows)).

(** A reference implementation of [train_test_split] over three
    classes. The rows are rotated by the seed, or, without a seed, by
    the state of the global generator, which then advances. *)
Definition reference_split (X : list Row) (y : list Z) (test_size : float)
    (random_state : option Z) (stratify : option (list Z)) : M Z (Split Row) :=
  fun g =>
    let shift := default g random_state in
    let g' := match random_state with Some _ => g | None => g + 1 end in
    let n := length y in
    match n_test test_size n with
    | None => (Raise (ValueError "test_size is not a fraction"), g')
    | Some nt =>
        let n_train := (n - Z.to_nat nt)%nat in
        let rows := rotate (Z.to_nat (Z.abs shift)) (zip X y) in
        let parts :=
          match stratify with
          | Some labels => stratified_parts n n_train labels rows
          | None => (take n_train rows, drop n_train rows)
          end in
        (Return {| X_train := parts.1.*1; X_test := parts.2.*1;
                   y_train := parts.1.*2; y_test := parts.2.*2 |}, g')
    end.

Lemma rotate_Permutation {A} (k : nat) (l : list A) : rotate k l ≡ₚ l.
Proof.
  unfold rotate. rewrite Permutation_app_comm. rewrite take_drop. reflexivity.
Qed.

Lemma rows_of_length (c : Z) rows : length (rows_of c rows) = count c rows.*2.
Proof.
  unfold rows_of, count. induction rows as [| [x l] rows IH]; [reflexivity |].
  rewrite fmap_cons. simpl snd.
  destruct (decide (l = c)) as [Heq | Hne].
  - rewrite !filter_cons_True by exact Heq. simpl. congruence.
  - rewrite !filter_cons_False by exact Hne. exact IH.
Qed.

Lemma count_same_label (c c' : Z) rows :
  Forall (fun r => r.2 = c) rows ->
  count c' rows.*2 = if decide (c' = c) then length rows else 0%nat.
Proof.
  unfold count. induction 1 as [| [x l] rows Hl _ IH].
  - destruct (decide (c' = c)); reflexivity.
  - simpl in Hl. subst l. rewrite fmap_cons. simpl snd.
    destruct (decide (c' = c)) as [-> | Hne].
    + rewrite filter_cons_True by reflexivity. simpl. congruence.
    + rewrite filter_cons_False by congruence. exact IH.
Qed.

Lemma rows_of_label (c : Z) rows : Forall (fun r => r.2 = c) (rows_of c rows).
Proof.
  apply Forall_forall. intros r Hr. apply list_elem_of_filter in Hr. tauto.
Qed.

Lemma rows_of_Permutation rows :
  Forall (fun r => 0 <= r.2 < 3) rows ->
  rows_of 0 rows ++ rows_of 1 rows ++ rows_of 2 rows ≡ₚ rows.
Proof.
  unfold rows_of. induction 1 as [| [x l] rows Hl _ IH]; [reflexivity |].
  simpl in Hl.
  assert (Hcase : l = 0 \/ l = 1 \/ l = 2) by lia.
  destruct Hcase as [-> | [-> | ->]];
    repeat first [ rewrite filter_cons_True by reflexivity
                 | rewrite filter_cons_False by (simpl; lia) ];
    rewrite <- IH at 4; solve_Permutation.
Qed.

Lemma count_outside (c : Z) (ys : list Z) :
  three_classes ys -> ~ 0 <= c < 3 -> count c ys = 0%nat.
Proof.
  unfold count. induction 1 as [| y ys Hy _ IH]; intros Hc; [reflexivity |].
  rewrite filter_cons_False by lia. apply IH, Hc.
Qed.

Lemma stratified_parts_spec (n n_train : nat) (labels : list Z) rows :
  (0 < n)%nat -> (n_train <= n)%nat -> length rows = n ->
  three_classes labels -> rows.*2 ≡ₚ labels ->
  let parts := stratified_parts n n_train labels rows in
  parts.1 ++ parts.2 ≡ₚ rows
  /\ length parts.1 = n_train
  /\ forall c, within_one_row n (count c labels) n_train (count c parts.1.*2).
Proof.
  intros Hn Htrain Hlen Hclasses Hlabels.
  assert (Hrows : Forall (fun r => 0 <= r.2 < 3) rows).
  { unfold three_classes in Hclasses. rewrite <- Hlabels in Hclasses.
    rewrite Forall_fmap in Hclasses. exact Hclasses. }
  assert (Hcount : forall c, length (rows_of c rows) = count c labels).
  { intros c. rewrite rows_of_length. apply count_Permutation, Hlabels. }
  assert (Hsum : (count 0 labels + count 1 labels + count 2 labels = n)%nat).
  { pose proof (Permutation_length (rows_of_Permutation rows Hrows)) as Hl.
    rewrite !length_app, !Hcount in Hl. lia. }
  destruct (quotas n n_train _ _ _ Hn Htrain Hsum)
    as ((Ht0 & Ht1 & Ht2) & Htotal & Hw0 & Hw1 & Hw2).
  unfold stratified_parts. cbv zeta. simpl fst. simpl snd.
  set (t0 := quota0 n n_train (count 0 labels)) in *.
  set (t1 := quota1 n n_train (count 0 labels) (count 1 labels)) in *.
  set (t2 := quota2 n n_train (count 0 labels) (count 1 labels)) in *.
  split; [| split].
  - transitivity (rows_of 0 rows ++ rows_of 1 rows ++ rows_of 2 rows);
      [| apply rows_of_Permutation, Hrows].
    rewrite <- (take_drop t0 (rows_of 0 rows)) at 3.
    rewrite <- (take_drop t1 (rows_of 1 rows)) at 3.
    rewrite <- (take_drop t2 (rows_of 2 rows)) at 3.
    solve_Permutation.
  - rewrite !length_app, !length_take_le by (rewrite Hcount; assumption). lia.
  - intros c. rewrite !fmap_app, !count_app.
    rewrite !(count_same_label _ c) by (apply Forall_take, rows_of_label).
    rewrite !length_take_le by (rewrite Hcount; assumption).
    destruct (decide (c = 0)) as [-> | H0]; [simpl; rewrite !Nat.add_0_r; exact Hw0 |].
    destruct (decide (c = 1)) as [-> | H1]; [simpl; rewrite !Nat.add_0_r; exact Hw1 |].
    destruct (decide (c = 2)) as [-> | H2]; [simpl; exact Hw2 |].
    rewrite (count_outside c labels Hclasses) by lia.
    unfold within_one_row. simpl. lia.
Qed.

Lemma reference_split_seeded : seeded_contract reference_split.
Proof.
  intros X y test_size seed stratify g1 g2. unfold reference_split. simpl.
  destruct (n_test test_size (length y)); reflexivity.
Qed.

Lemma reference_split_stratified : stratified_contract reference_split.
Proof.
  intros X y test_size seed g nt _ HXy Hclasses _ Hnt Hlo Hhi.
  unfold reference_split. rewrite Hnt. simpl default.
  set (rows := rotate (Z.to_nat (Z.abs seed)) (zip X y)).
  assert (Hrows : rows ≡ₚ zip X y) by apply rotate_Permutation.
  assert (Hlen : length rows = length y).
  { rewrite Hrows, length_zip. lia. }
  assert (Hlabels : rows.*2 ≡ₚ y).
  { rewrite Hrows, snd_zip by lia. reflexivity. }
  destruct (stratified_parts_spec (length y) (length y - Z.to_nat nt) y rows)
    as (Hperm & Htrain & Hstrat); [lia | lia | assumption.. |].
  set (parts := stratified_parts (length y) (length y - Z.to_nat nt) y rows) in *.
  assert (Htest : length parts.2 = Z.to_nat nt).
  { pose proof (Permutation_length Hperm) as Hl.
    rewrite length_app in Hl. lia. }
  eexists _, _. split; [reflexivity |].
  cbn [X_train X_test y_train y_test].
  rewrite !length_fmap, !zip_fst_snd, Htrain, Htest.
  split; [reflexivity |]. split; [reflexivity |].
  split; [reflexivity |]. split; [reflexivity |].
  split; [rewrite Hperm; exact Hrows | exact Hstrat].
Qed.

End Reference.

(** *** Concrete runs *)

(** A dataset shaped like the fixed one: 150 rows, numbered, with 50
    rows of each class in class order. *)
Definition X150 : list nat := seq 0 150.
Definition y150 : list Z := replicate 50 0 ++ replicate 50 1 ++ replicate 50 2.

Lemma y150_three_classes : three_classes y150.
Proof.
  unfold three_classes. apply Forall_forall. intros c Hc. unfold y150 in Hc.
  rewrite !elem_of_app in Hc.
  destruct Hc as [Hc | [Hc | Hc]]; apply elem_of_replicate in Hc; lia.
Qed.

Lemma y150_populated (c : Z) : 0 <= c < 3 -> (2 <= count c y150)%nat.
Proof.
  intros Hc. assert (Hcase : c = 0 \/ c = 1 \/ c = 2) by lia.
  destruct Hcase as [-> | [-> | ->]]; vm_compute; lia.
Qed.

Lemma split_data_deterministic_witness :
  seeded_contract (reference_split (Row := nat))
  /\ (split_data reference_split X150 y150 default_test_size
        default_random_state 0).1
     = (split_data reference_split X150 y150 default_test_size
          default_random_state 2024).1.
Proof.
  split; [apply reference_split_seeded |].
  apply (split_data_deterministic reference_split X150 y150 default_test_size
           default_random_state 0 2024).
  apply reference_split_seeded.
Defined.

Lemma split_data_150_rows_witness :
  stratified_contract (reference_split (Row := nat))
  /\ 0 <= default_random_state < 2 ^ 32
  /\ length X150 = 150%nat /\ length y150 = 150%nat
  /\ three_classes y150
  /\ (forall c, 0 <= c < 3 -> (2 <= count c y150)%nat)
  /\ exists sp g',
       split_data reference_split X150 y150 default_test_size
         default_random_state 0
       = (Return sp, g')
       /\ length (X_train sp) = 120%nat /\ length (y_train sp) = 120%nat
       /\ length (X_test sp) = 30%nat /\ length (y_test sp) = 30%nat
       /\ forall c,
            within_one_row 150 (count c y150) 120 (count c (y_train sp))
            /\ within_one_row 150 (count c y150) 30 (count c (y_test sp)).
Proof.
  split; [apply reference_split_stratified |].
  split; [unfold default_random_state; lia |].
  split; [reflexivity |]. split; [reflexivity |].
  split; [apply y150_three_classes |]. split; [apply y150_populated |].
  apply (split_data_150_rows reference_split X150 y150 default_random_state 0).
  - apply reference_split_stratified.
  - unfold default_random_state. lia.
  - reflexivity.
  - reflexivity.
  - apply y150_three_classes.
  - apply y150_populated.
Defined.

(** On that dataset the reference split trains on 40 rows of each class
    and tests on 10. *)
Example reference_split_150 :
  let sp := (split_data reference_split X150 y150 default_test_size
               default_random_state 0).1 in
  match sp with
  | Return sp =>
      (count 0 (y_train sp), count 1 (y_train sp), count 2 (y_train sp),
       count 0 (y_test sp), count 1 (y_test sp), count 2 (y_test sp))
      = (40, 40, 40, 10, 10, 10)%nat
  | Raise _ => False
  end.
Proof. vm_compute. reflexivity. Qed.

(** Without a seed the result does depend on the global generator: the
    seed that [split_data] always passes is what makes it repeatable. *)
Example unseeded_split_varies :
  (reference_split [10; 20; 30; 40]%nat [0; 0; 1; 1] default_test_size None None 0).1
  <> (reference_split [10; 20; 30; 40]%nat [0; 0; 1; 1] default_test_size None None 1).1.
Proof. vm_compute. discriminate. Qed.

End DataLoaderProps.

(* ===================================================================== *)
(** * Part III: the rest of the two files                                 *)
(* ===================================================================== *)

(** ** [src/api/app.py]: [model_info] and the dispatch of requests *)

Module AppRest.
Import Py App.
Local Open Scope py_scope.

(** The dict that [model_info] returns *)
Record ModelInfo : Type := {
  model_type : string;
  features : list string;
  target_classes : list string;
  n_features : Z;
  n_classes : Z
}.

(** [model_info] *)
Definition model_info : M World ModelInfo :=
  w <- get ;;
  match model w with
  | None => raise (HTTPException 503 "Model not loaded")
  | Some _ =>
      ret {| model_type := "RandomForestClassifier";
             features := feature_names;
             target_classes := target_names;
             n_features := Z.of_nat (length feature_names);
             n_classes := Z.of_nat (length target_names) |}
  end.

(** A request to one of the six routes the application declares. *)
Inductive Request : Type :=
| GetRoot
| GetApi
| GetHealth
| PostPredict (body : IrisFeatures)
| PostPredictBatch (body : list IrisFeatures)
| GetModelInfo.

(** The state the process is in after it has answered a request. *)
Definition serve (r : Request) (w : World) : World :=
  match r with
  | GetRoot => (get_root w).2
  | GetApi => (api_info w).2
  | GetHealth => (health_check w).2
  | PostPredict body => (post_predict body w).2
  | PostPredictBatch body => (post_predict_batch body w).2
  | GetModelInfo => (model_info w).2
  end.

(** The requests of a session, answered one after the other. *)
Definition serve_all (rs : list Request) (w : World) : World :=
  foldl (fun w r => serve r w) w rs.

End AppRest.

(** ** [src/data/data_loader.py]: loading, summary and pipeline *)

Module DataLoaderRest.
Import Py DataLoader.
Local Open Scope py_scope.

(** A two-dimensional numpy array of floats: its rows, and its number
    of columns, which it has also when it has no rows. *)
Record Matrix : Type := {
  ncols : nat;
  rows : list (list Q)
}.

(** A numpy array of floats, one- or two-dimensional. *)
Inductive ndarray : Type :=
| Array1 (items : list Q)
| Array2 (m : Matrix).

(** [X.shape[0]] *)
Definition shape0 (X : ndarray) : nat :=
  match X with
  | Array1 items => length items
  | Array2 m => length (rows m)
  end.

(** [np.unique(y, return_counts=True)] (library code): the distinct
    values of [y] in increasing order, each with the number of times it
    occurs. The pairs are built by inserting the items of [y] one by one
    into a list kept in increasing order of value. *)
Fixpoint insert_count (c : Z) (l : list (Z * nat)) : list (Z * nat) :=
  match l with
  | [] => [(c, 1%nat)]
  | (k, n) :: rest =>
      if c <? k then (c, 1%nat) :: l
      else if c =? k then (k, S n) :: rest
      else (k, n) :: insert_count c rest
  end.

Definition unique_counts (y : list Z) : list (Z * nat) :=
  foldr insert_count [] y.

(** [np.unique(y)] *)
Definition np_unique (y : list Z) : list Z := (unique_counts y).*1.

(** [dict(pairs)]: a later pair overwrites an earlier one with the same
    key. *)
Definition dict {V} (pairs : list (Z * V)) : gmap Z V :=
  foldl (fun d kv => <[kv.1 := kv.2]> d) ∅ pairs.

(** The library operations the loader uses besides [train_test_split],
    taken as parameters: the dataset of [load_iris()], a fresh
    [StandardScaler()], its [fit_transform], and [np.mean] and [np.std]
    along axis 0 of a matrix and over a vector. *)
Record Library (Scaler : Type) : Type := {
  iris_data : Matrix;
  iris_target : list Z;
  iris_feature_names : list string;
  iris_target_names : list string;
  StandardScaler : Scaler;
  fit_transform : Scaler -> Matrix -> Scaler * Matrix;
  np_mean_axis0 : Matrix -> list Q;
  np_std_axis0 : Matrix -> list Q;
  np_mean : list Q -> Q;
  np_std : list Q -> Q
}.
Arguments iris_data {Scaler} _.
Arguments iris_target {Scaler} _.
Arguments iris_feature_names {Scaler} _.
Arguments iris_target_names {Scaler} _.
Arguments StandardScaler {Scaler} _.
Arguments fit_transform {Scaler} _ _ _.
Arguments np_mean_axis0 {Scaler} _ _.
Arguments np_std_axis0 {Scaler} _ _.
Arguments np_mean {Scaler} _ _.
Arguments np_std {Scaler} _ _.

Section Loader.
Context {Scaler Ambient : Type}.
Variable lib : Library Scaler.

(** The attributes of a [DataLoader] object *)
Record DataLoaderObject : Type := {
  scaler : Scaler;
  feature_names : option (list string);
  target_names : option (list string)
}.

(** [DataLoader.__init__] *)
Definition DataLoader_init : DataLoaderObject :=
  {| scaler := StandardScaler lib; feature_names := None; target_names := None |}.

(** The dict that [load_iris_data] returns *)
Record IrisData : Type := {
  data_features : Matrix;
  data_target : list Z;
  data_feature_names : option (list string);
  data_target_names : option (list string);
  data_normalized : bool
}.

(** [DataLoader.load_iris_data]: the dict, and [self] after the call *)
Definition load_iris_data (self : DataLoaderObject) (normalize : bool)
    : IrisData * DataLoaderObject :=
  let names := Some (iris_feature_names lib) in
  let targets := Some (iris_target_names lib) in
  let '(sc, X) :=
    if normalize then fit_transform lib (scaler self) (iris_data lib)
    else (scaler self, iris_data lib) in
  ({| data_features := X; data_target := iris_target lib;
      data_feature_names := names; data_target_names := targets;
      data_normalized := normalize |},
   {| scaler := sc; feature_names := names; target_names := targets |}).

(** The dict that [get_data_summary] returns *)
Record Summary : Type := {
  n_samples : nat;
  n_features : nat;
  n_classes : nat;
  class_distribution : gmap Z nat;
  feature_stats_mean : list Q;
  feature_stats_std : list Q
}.

(** [DataLoader.get_data_summary], on arrays *)
Definition get_data_summary (X : ndarray) (y : list Z) : Summary :=
  {| n_samples := shape0 X;
     n_features := match X with Array2 m => ncols m | Array1 _ => 1 end;
     n_classes := length (np_unique y);
     class_distribution := dict (zip (unique_counts y).*1 (unique_counts y).*2);
     feature_stats_mean :=
       match X with
       | Array2 m => np_mean_axis0 lib m
       | Array1 items => [np_mean lib items]
       end;
     feature_stats_std :=
       match X with
       | Array2 m => np_std_axis0 lib m
       | Array1 items => [np_std lib items]
       end |}.

(** The dict that [prepare_data_pipeline] returns *)
Record Prepared : Type := {
  prepared_X_train : Matrix;
  prepared_X_test : Matrix;
  prepared_y_train : list Z;
  prepared_y_test : list Z;
  prepared_feature_names : option (list string);
  prepared_target_names : option (list string);
  train_summary : Summary;
  test_summary : Summary;
  prepared_normalized : bool
}.

Variable train_test_split :
  list (list Q) -> list Z -> float -> option Z -> option (list Z)
  -> M Ambient (Split (list Q)).

(** [prepare_data_pipeline]. [train_test_split] selects rows of the
    feature matrix: the two parts have its number of columns. *)
Definition prepare_data_pipeline (normalize : bool) (test_size : float)
    (random_state : Z) : M Ambient Prepared :=
  let loader := DataLoader_init in
  let '(data, loader) := load_iris_data loader normalize in
  let X := data_features data in
  sp <- split_data train_test_split (rows X) (data_target data)
          test_size random_state ;;
  let Xtr := {| ncols := ncols X; rows := X_train sp |} in
  let Xte := {| ncols := ncols X; rows := X_test sp |} in
  ret {| prepared_X_train := Xtr;
         prepared_X_test := Xte;
         prepared_y_train := y_train sp;
         prepared_y_test := y_test sp;
         prepared_feature_names := data_feature_names data;
         prepared_target_names := data_target_names data;
         train_summary := get_data_summary (Array2 Xtr) (y_train sp);
         test_summary := get_data_summary (Array2 Xte) (y_test sp);
         prepared_normalized := normalize |}.

End Loader.

End DataLoaderRest.

(** ** Properties of the rest of [src/api/app.py] *)

Module AppRestProps.
Import Py PyFacts App AppProps AppRest.
Local Open Scope py_scope.

(** *** What an inference touches *)

(** The world differs from [w] at most by model calls appended to the
    log. *)
Definition only_logs (w w' : World) : Prop :=
  model w' = model w /\ fs w' = fs w
  /\ inference_log w `prefix_of` inference_log w'.

Lemma only_logs_refl (w : World) : only_logs w w.
Proof. split; [| split]; reflexivity. Qed.

Lemma only_logs_trans (w1 w2 w3 : World) :
  only_logs w1 w2 -> only_logs w2 w3 -> only_logs w1 w3.
Proof.
  intros (Hm1 & Hf1 & Hl1) (Hm2 & Hf2 & Hl2).
  split; [| split]; [congruence | congruence | etransitivity; eassumption].
Qed.

Lemma only_logs_log_call (c : ModelCall) (w : World) : only_logs w (log_call c w).
Proof.
  split; [| split]; [reflexivity | reflexivity |].
  simpl. apply prefix_app_r. reflexivity.
Qed.

(** What [predict_one] returns, step by step. *)
Lemma predict_one_inv (m : Model) (s : IrisFeatures) (w w' : World)
    (r : PredictionResponse) :
  predict_one m s w = (Return r, w') ->
  exists ids id name probs ps c,
    model_predict m (feature_array s) = Return ids
    /\ ndarray_first ids = Return id
    /\ getitem target_names id = Return name
    /\ model_predict_proba m (feature_array s) = Return probs
    /\ ndarray_first probs = Return ps
    /\ max ps = Return c
    /\ r = {| prediction := name; prediction_id := id; confidence := c;
              probabilities := dict_comp (zip target_names ps) |}
    /\ w' = after_inference s w.
Proof.
  unfold predict_one, call_predict, call_predict_proba.
  unfold bind, modify, lift, ret.
  destruct (model_predict m (feature_array s)) as [ids |] eqn:Hids; [| discriminate].
  destruct (ndarray_first ids) as [id |] eqn:Hid; [| discriminate].
  destruct (getitem target_names id) as [name |] eqn:Hname; [| discriminate].
  destruct (model_predict_proba m (feature_array s)) as [probs |] eqn:Hprobs;
    [| discriminate].
  destruct (ndarray_first probs) as [ps |] eqn:Hps; [| discriminate].
  destruct (max ps) as [c |] eqn:Hc; [| discriminate].
  intros H. injection H as <- <-.
  exists ids, id, name, probs, ps, c. tauto.
Qed.

Lemma predict_one_only_logs (m : Model) (s : IrisFeatures) (w : World) :
  only_logs w (predict_one m s w).2.
Proof.
  unfold predict_one, call_predict, call_predict_proba.
  unfold bind, modify, lift, ret.
  destruct (model_predict m (feature_array s)) as [ids |];
    [| apply only_logs_log_call].
  destruct (ndarray_first ids) as [id |]; [| apply only_logs_log_call].
  destruct (getitem target_names id) as [name |]; [| apply only_logs_log_call].
  assert (H2 : only_logs w (after_inference s w)).
  { eapply only_logs_trans; apply only_logs_log_call. }
  destruct (model_predict_proba m (feature_array s)) as [probs |]; [| exact H2].
  destruct (ndarray_first probs) as [ps |]; [| exact H2].
  destruct (max ps) as [c |]; exact H2.
Qed.

Lemma predict_batch_loop_only_logs (m : Model) (samples : list IrisFeatures) :
  forall acc w, only_logs w (predict_batch_loop m samples acc w).2.
Proof.
  induction samples as [| s rest IH]; intros acc w; simpl.
  - apply only_logs_refl.
  - unfold bind. pose proof (predict_one_only_logs m s w) as H1.
    destruct (predict_one m s w) as [[r | e] w1]; simpl in *; [| exact H1].
    eapply only_logs_trans; [exact H1 | apply IH].
Qed.

Lemma predict_only_logs (s : IrisFeatures) (w : World) :
  only_logs w (predict s w).2.
Proof.
  unfold predict, bind, get, raise, try_except.
  destruct (model w) as [m |]; [| apply only_logs_refl].
  pose proof (predict_one_only_logs m s w) as H.
  destruct (predict_one m s w) as [[r | e] w1]; exact H.
Qed.

Lemma predict_batch_only_logs (samples : list IrisFeatures) (w : World) :
  only_logs w (predict_batch samples w).2.
Proof.
  unfold predict_batch, bind, get, raise, try_except, ret.
  destruct (model w) as [m |]; [| apply only_logs_refl].
  destruct (100 <? Z.of_nat (length samples)); [apply only_logs_refl |].
  pose proof (predict_batch_loop_only_logs m samples [] w) as H.
  destruct (predict_batch_loop m samples [] w) as [[r | e] w1]; exact H.
Qed.

(** *** Serving keeps the model *)

Lemma serve_only_logs (r : Request) (w : World) : only_logs w (serve r w).
Proof.
  destruct r as [| | | body | body |]; simpl.
  - rewrite get_root_spec.
    destruct (fs w !! "static/index.html") as [[m | c] |]; apply only_logs_refl.
  - apply only_logs_refl.
  - rewrite health_check_spec. destruct (model w); apply only_logs_refl.
  - unfold post_predict, bind, lift.
    destruct (IrisFeatures_validate body); [apply predict_only_logs |].
    apply only_logs_refl.
  - unfold post_predict_batch, bind, lift.
    destruct (BatchIrisFeatures_validate body); [apply predict_batch_only_logs |].
    apply only_logs_refl.
  - unfold model_info, bind, get, ret, raise.
    destruct (model w); apply only_logs_refl.
Qed.

Lemma serve_all_only_logs (rs : list Request) :
  forall w, only_logs w (serve_all rs w).
Proof.
  unfold serve_all. induction rs as [| r rs IH]; intros w; simpl.
  - apply only_logs_refl.
  - eapply only_logs_trans; [apply serve_only_logs | apply IH].
Qed.

(** Once [load_model] has returned, the service stays ready: whatever
    requests it then answers, in whatever order, the model it loaded is
    still the loaded model, the filesystem is as startup left it, every
    model call logged before is still logged, and [health] is true. *)
Theorem ready_stays_ready (env : Env) (w0 w : World) (rs : list Request) :
  load_model env w0 = (Return tt, w) ->
  model (serve_all rs w) = model w
  /\ is_Some (model (serve_all rs w))
  /\ fs (serve_all rs w) = fs w
  /\ inference_log w `prefix_of` inference_log (serve_all rs w)
  /\ health (serve_all rs w) = true.
Proof.
  intros Hload. destruct (serve_all_only_logs rs w) as (Hm & Hf & Hl).
  pose proof (load_model_installs env w0 w Hload) as Hsome.
  split; [exact Hm |]. split; [rewrite Hm; exact Hsome |].
  split; [exact Hf |]. split; [exact Hl |].
  unfold health. rewrite health_check_spec, Hm.
  destruct Hsome as [m ->]. reflexivity.
Qed.

Lemma ready_stays_ready_witness :
  let w := set_model (Some stump) world_second_candidate in
  let rs := [PostPredict setosa_sample; GetRoot; PostPredictBatch batch_of_101;
             PostPredict long_sepal_sample; GetHealth; GetModelInfo] in
  load_model env_cannot_train world_second_candidate = (Return tt, w)
  /\ model (serve_all rs w) = model w
  /\ is_Some (model (serve_all rs w))
  /\ fs (serve_all rs w) = fs w
  /\ inference_log w `prefix_of` inference_log (serve_all rs w)
  /\ health (serve_all rs w) = true.
Proof.
  cbv zeta. split; [reflexivity |].
  apply (ready_stays_ready env_cannot_train world_second_candidate).
  reflexivity.
Defined.

(** *** What [predict] raises and returns, for any model *)

Lemma getitem_Return_range {A} (l : list A) (i : Z) (x : A) :
  getitem l i = Return x -> - Z.of_nat (length l) <= i < Z.of_nat (length l).
Proof.
  unfold getitem. destruct (index_sized i); [| discriminate].
  destruct (Z.ltb_spec i 0) as [Hneg | Hpos];
    match goal with
    | |- context [(0 <=? ?j) && (?j <? ?n)] =>
        destruct ((0 <=? j) && (j <? n)) eqn:Hin; [| discriminate]
    end;
    apply andb_true_iff in Hin as [H0 Hn];
    apply Z.leb_le in H0; apply Z.ltb_lt in Hn; intros _; lia.
Qed.



(** A dict comprehension holds only pairs it was given. *)
Lemma dict_comp_lookup {V} (kvs : list (string * V)) (k : string) (v : V) :
  dict_comp kvs !! k = Some v -> (k, v) ∈ kvs.
Proof.
  unfold dict_comp.
  assert (H : forall d0 : gmap string V,
             foldl (fun d kv => <[kv.1 := kv.2]> d) d0 kvs !! k = Some v ->
             (k, v) ∈ kvs \/ d0 !! k = Some v).
  { induction kvs as [| [k' v'] kvs IH]; intros d0 Hl; simpl in *; [tauto |].
    destruct (IH _ Hl) as [Hin | Hd].
    - left. apply list_elem_of_further, Hin.
    - destruct (decide (k' = k)) as [-> | Hne].
      + rewrite lookup_insert_eq in Hd. injection Hd as ->.
        left. apply list_elem_of_here.
      + rewrite lookup_insert_ne in Hd by exact Hne. tauto. }
  intros Hl. destruct (H ∅ Hl) as [Hin | Hd]; [exact Hin |].
  rewrite lookup_empty in Hd. discriminate.
Qed.

(** Whatever the classifier answers, a result that [predict] returns
    names the entry of the class table at the predicted index, which lies
    in [-3, 3): a negative index counts from the end of the table. Its
    probability dict is keyed by class names only, and no value in it
    exceeds the confidence. The two model calls are the only trace the
    request leaves. *)
Theorem predict_result_shape (s : IrisFeatures) (w w' : World)
    (r : PredictionResponse) :
  predict s w = (Return r, w') ->
  getitem target_names (prediction_id r) = Return (prediction r)
  /\ prediction r ∈ target_names
  /\ -3 <= prediction_id r < 3
  /\ (forall k, k ∈ dom (probabilities r) -> k ∈ target_names)
  /\ (forall k v, probabilities r !! k = Some v -> (v <= confidence r)%Q)
  /\ w' = after_inference s w.
Proof.
  unfold predict, bind, get, raise, try_except.
  destruct (model w) as [m |]; [| discriminate].
  destruct (predict_one m s w) as [[r' | e] w1] eqn:Hone; [| discriminate].
  intros H. injection H as -> ->.
  apply predict_one_inv in Hone
    as (ids & id & name & probs & ps & c & _ & _ & Hname & _ & _ & Hc & -> & ->).
  cbn [prediction prediction_id confidence probabilities].
  split; [exact Hname |]. split; [eapply getitem_elem, Hname |].
  split; [apply getitem_Return_range in Hname; simpl in Hname; lia |].
  split; [| split; [| reflexivity]].
  - intros k Hk. apply elem_of_dom in Hk as [v Hv].
    apply dict_comp_lookup in Hv. eapply elem_of_zip_l, Hv.
  - intros k v Hv. apply dict_comp_lookup in Hv. apply elem_of_zip_r in Hv.
    apply max_spec in Hc as [_ Hupper].
    rewrite Forall_forall in Hupper. apply Hupper, Hv.
Qed.

Lemma predict_result_shape_witness :
  exists r w',
    predict boundary_sample world_with_stump = (Return r, w')
    /\ getitem target_names (prediction_id r) = Return (prediction r)
    /\ prediction r ∈ target_names
    /\ -3 <= prediction_id r < 3
    /\ (forall k, k ∈ dom (probabilities r) -> k ∈ target_names)
    /\ (forall k v, probabilities r !! k = Some v -> (v <= confidence r)%Q)
    /\ w' = after_inference boundary_sample world_with_stump.
Proof.
  eexists _, _. split; [reflexivity |].
  apply (predict_result_shape boundary_sample world_with_stump).
  reflexivity.
Defined.

(** A classifier that answers class index [id] and the probabilities
    [ps] for every input. *)
Definition constant_model (id : Z) (ps : list Q) : Model :=
  {| model_predict := fun a => Return ((fun _ => id) <$> a);
     model_predict_proba := fun a => Return ((fun _ => ps) <$> a) |}.

Definition world_with (m : Model) : World :=
  {| model := Some m; fs := ∅; inference_log := [] |}.

(** A classifier whose [predict] raises. *)
Definition broken_model : Model :=
  {| model_predict := fun _ => Raise (ValueError "X has 4 features, but 3 were expected");
     model_predict_proba := fun a => Return ((fun _ => [1%Q; 0%Q; 0%Q]) <$> a) |}.

(** [predict] lets no exception through but its own two. With no model
    loaded it raises 503 "Model not loaded" and does nothing else; with a
    model loaded it never raises 503. An exception [e] that the classifier
    raises, in [predict] or afterwards in [predict_proba], comes out as
    500 with the detail "Prediction failed: " followed by [str(e)].
    Whatever [predict] raises is one of these two: the 503 with no model
    loaded, or the 500 that carries the text of the exception its [try]
    block raised. *)
Theorem predict_raises_503_or_500 (s : IrisFeatures) (w : World) :
  (model w = None ->
   predict s w = (Raise (HTTPException 503 "Model not loaded"), w))
  /\ (forall m e,
        model w = Some m ->
        model_predict m (feature_array s) = Raise e ->
        predict s w
        = (Raise (HTTPException 500 ("Prediction failed: " +:+ str e)),
           log_call (CallPredict (feature_array s)) w))
  /\ (forall m id ids e,
        model w = Some m ->
        model_predict m (feature_array s) = Return (id :: ids) ->
        -3 <= id < 3 ->
        model_predict_proba m (feature_array s) = Raise e ->
        predict s w
        = (Raise (HTTPException 500 ("Prediction failed: " +:+ str e)),
           after_inference s w))
  /\ (forall e, (predict s w).1 = Raise e ->
        (model w = None /\ e = HTTPException 503 "Model not loaded")
        \/ (exists m cause,
              model w = Some m
              /\ (predict_one m s w).1 = Raise cause
              /\ e = HTTPException 500 ("Prediction failed: " +:+ str cause))).
Proof.
  split; [| split; [| split]].
  - intros Hm. unfold predict, bind, get, raise. rewrite Hm. reflexivity.
  - intros m e Hm He. unfold predict, bind, get, try_except, raise. rewrite Hm.
    unfold predict_one, call_predict. unfold bind, modify, lift.
    rewrite He. reflexivity.
  - intros m id ids e Hm Hids Hid He.
    unfold predict, bind, get, try_except, raise. rewrite Hm.
    unfold predict_one, call_predict, call_predict_proba.
    unfold bind, modify, lift.
    rewrite Hids. cbn [ndarray_first].
    assert (Hget : exists name', getitem target_names id = Return name').
    { assert (Hcase : id = -3 \/ id = -2 \/ id = -1 \/ id = 0 \/ id = 1 \/ id = 2)
        by lia.
      destruct Hcase as [-> | [-> | [-> | [-> | [-> | ->]]]]];
        eexists; reflexivity. }
    destruct Hget as [name' ->]. rewrite He. reflexivity.
  - unfold predict, bind, get, raise, try_except.
    destruct (model w) as [m |]; simpl.
    + destruct (predict_one m s w) as [[r | cause] w1] eqn:Hone; simpl;
        [discriminate |].
      intros e H. injection H as <-. right. exists m, cause.
      split; [reflexivity |]. rewrite Hone. split; reflexivity.
    + intros e H. injection H as <-. left. split; reflexivity.
Qed.

(** A classifier whose [predict_proba] raises. *)
Definition half_broken_model : Model :=
  {| model_predict := fun a => Return ((fun _ => 1) <$> a);
     model_predict_proba := fun _ => Raise (OtherException "not fitted") |}.

Lemma predict_raises_503_or_500_witness :
  predict setosa_sample world_without_model
  = (Raise (HTTPException 503 "Model not loaded"), world_without_model)
  /\ predict setosa_sample (world_with broken_model)
     = (Raise (HTTPException 500
                 "Prediction failed: X has 4 features, but 3 were expected"),
        log_call (CallPredict (feature_array setosa_sample))
          (world_with broken_model))
  /\ predict setosa_sample (world_with half_broken_model)
     = (Raise (HTTPException 500 "Prediction failed: not fitted"),
        after_inference setosa_sample (world_with half_broken_model)).
Proof.
  split; [| split].
  - apply (proj1 (predict_raises_503_or_500 setosa_sample world_without_model)).
    reflexivity.
  - apply (proj1 (proj2 (predict_raises_503_or_500 setosa_sample
                           (world_with broken_model)))
             broken_model (ValueError "X has 4 features, but 3 were expected")).
    + reflexivity.
    + reflexivity.
  - apply (proj1 (proj2 (proj2 (predict_raises_503_or_500 setosa_sample
                                  (world_with half_broken_model))))
             half_broken_model 1 [] (OtherException "not fitted")).
    + reflexivity.
    + reflexivity.
    + lia.
    + reflexivity.
Defined.



(** Nothing ties the confidence to the dict when the classifier answers
    more than three probabilities: the dict keeps the first three, the
    confidence is the largest of all. *)
Example confidence_outside_dict :
  match (predict setosa_sample
           (world_with (constant_model 0 [1 # 10; 2 # 10; 3 # 10; 4 # 10]%Q))).1 with
  | Return r =>
      confidence r = (4 # 10)%Q
      /\ probabilities r
         = <["virginica" := (3 # 10)%Q]>
             (<["versicolor" := (2 # 10)%Q]> (<["setosa" := (1 # 10)%Q]> ∅))
  | Raise _ => False
  end.
Proof. split; reflexivity. Qed.

(** *** [predict_batch], for any model *)

Lemma predict_of_predict_one (m : Model) (s : IrisFeatures) (w : World) :
  model w = Some m ->
  (predict s w).1
  = match (predict_one m s w).1 with
    | Return r => Return r
    | Raise e => Raise (HTTPException 500 ("Prediction failed: " +:+ str e))
    end.
Proof.
  intros Hm. unfold predict, bind, get, try_except, raise. rewrite Hm.
  destruct (predict_one m s w) as [[r | e] w1]; reflexivity.
Qed.

(** The loop either gets through the whole batch, or stops at the first
    sample whose inference raises. *)
Lemma predict_batch_loop_cases (m : Model) (samples : list IrisFeatures) :
  forall acc w,
    (exists rs,
       predict_batch_loop m samples acc w
       = (Return (acc ++ rs), after_batch samples w)
       /\ Forall2 (fun s r => forall w0, (predict_one m s w0).1 = Return r)
            samples rs)
    \/ (exists e w',
          predict_batch_loop m samples acc w = (Raise e, w')
          /\ Exists (fun s => forall w0, (predict_one m s w0).1 = Raise e) samples).
Proof.
  induction samples as [| s rest IH]; intros acc w; simpl.
  - left. exists []. rewrite app_nil_r. split; [reflexivity | constructor].
  - unfold bind. destruct (predict_one m s w) as [[r | e] w1] eqn:Hone.
    + assert (w1 = after_inference s w) as ->.
      { apply predict_one_inv in Hone. destruct Hone as (? & ? & ? & ? & ? & ? & H).
        tauto. }
      assert (Hr : forall w0, (predict_one m s w0).1 = Return r).
      { intros w0. rewrite (predict_one_value m s w0 w), Hone. reflexivity. }
      destruct (IH (acc ++ [r]) (after_inference s w))
        as [(rs & Hrs & Hall) | (e & w' & He & Hex)].
      * left. exists (r :: rs). rewrite Hrs, <- app_assoc.
        split; [reflexivity | constructor; assumption].
      * right. exists e, w'. split; [exact He | apply Exists_cons_tl, Hex].
    + right. exists e, w1. split; [reflexivity |]. apply Exists_cons_hd.
      intros w0. rewrite (predict_one_value m s w0 w), Hone. reflexivity.
Qed.

(** Whatever the classifier does, a batch within the limit is answered
    as its samples would be one by one. If [predict] returns for every
    sample, [predict_batch] returns exactly those results, in input order,
    with [batch_size] their number. If [predict] fails for some sample,
    the batch as a whole is answered with 500 and no result, the cause
    being the one [predict] reports for a sample of the batch. *)
Theorem predict_batch_all_or_nothing (m : Model) (w : World)
    (samples : list IrisFeatures) :
  model w = Some m -> (length samples <= 100)%nat ->
  (Forall (fun s => returned (predict s w).1 = true) samples ->
   exists rs,
     predict_batch samples w
     = (Return {| predictions := rs; batch_size := Z.of_nat (length samples) |},
        after_batch samples w)
     /\ Forall2 (fun s r => (predict s w).1 = Return r) samples rs)
  /\ (Exists (fun s => returned (predict s w).1 = false) samples ->
      exists cause w',
        predict_batch samples w
        = (Raise (HTTPException 500 ("Batch prediction failed: " +:+ str cause)), w')
        /\ Exists (fun s => (predict s w).1
                            = Raise (HTTPException 500
                                       ("Prediction failed: " +:+ str cause)))
             samples).
Proof.
  intros Hm Hlen.
  assert (Hbatch : predict_batch samples w
                   = match predict_batch_loop m samples [] w with
                     | (Return rs, w') =>
                         (Return {| predictions := rs;
                                    batch_size := Z.of_nat (length rs) |}, w')
                     | (Raise e, w') =>
                         (Raise (HTTPException 500
                                   ("Batch prediction failed: " +:+ str e)), w')
                     end).
  { unfold predict_batch, bind, get, try_except, ret, raise. rewrite Hm.
    destruct (Z.ltb_spec 100 (Z.of_nat (length samples))); [lia |].
    destruct (predict_batch_loop m samples [] w) as [[rs | e] w']; reflexivity. }
  rewrite Hbatch.
  destruct (predict_batch_loop_cases m samples [] w)
    as [(rs & -> & Hall) | (e & w' & -> & Hex)]; simpl; split.
  - intros _. exists rs. rewrite (Forall2_length _ _ _ Hall). split; [reflexivity |].
    eapply Forall2_impl; [exact Hall |]. intros s r Hr.
    rewrite (predict_of_predict_one m s w Hm), Hr. reflexivity.
  - intros Hex. exfalso. apply Exists_exists in Hex as (s & Hs & Hfalse).
    apply list_elem_of_lookup in Hs as [i Hi].
    destruct (Forall2_lookup_l _ _ _ _ _ Hall Hi) as (r & _ & Hr).
    rewrite (predict_of_predict_one m s w Hm), Hr in Hfalse. discriminate.
  - intros Hall. exfalso. apply Exists_exists in Hex as (s & Hs & He).
    rewrite Forall_forall in Hall. specialize (Hall s Hs).
    rewrite (predict_of_predict_one m s w Hm), He in Hall. discriminate.
  - intros _. exists e, w'. split; [reflexivity |].
    eapply Exists_impl; [exact Hex |]. intros s He. simpl in He.
    rewrite (predict_of_predict_one m s w Hm), He. reflexivity.
Qed.

(** A classifier that fails on samples with a long petal. *)
Definition picky_model : Model :=
  {| model_predict := fun a =>
       match a with
       | [[_; _; pl; _]] =>
           if Qle_bool pl 5 then Return [0] else Raise (ValueError "petal too long")
       | _ => Return (stump_class <$> a)
       end;
     model_predict_proba := fun a => Return (stump_proba <$> a) |}.

Lemma predict_batch_all_or_nothing_witness :
  (exists rs,
     predict_batch [setosa_sample; setosa_sample] (world_with picky_model)
     = (Return {| predictions := rs; batch_size := 2 |},
        after_batch [setosa_sample; setosa_sample] (world_with picky_model))
     /\ Forall2 (fun s r => (predict s (world_with picky_model)).1 = Return r)
          [setosa_sample; setosa_sample] rs)
  /\ exists cause w',
       predict_batch [setosa_sample; boundary_sample; setosa_sample]
         (world_with picky_model)
       = (Raise (HTTPException 500 ("Batch prediction failed: " +:+ str cause)), w')
       /\ Exists (fun s => (predict s (world_with picky_model)).1
                           = Raise (HTTPException 500
                                      ("Prediction failed: " +:+ str cause)))
            [setosa_sample; boundary_sample; setosa_sample].
Proof.
  split.
  - apply (proj1 (predict_batch_all_or_nothing picky_model (world_with picky_model)
                    [setosa_sample; setosa_sample] eq_refl ltac:(simpl; lia))).
    repeat constructor.
  - apply (proj2 (predict_batch_all_or_nothing picky_model (world_with picky_model)
                    [setosa_sample; boundary_sample; setosa_sample]
                    eq_refl ltac:(simpl; lia))).
    apply Exists_cons_tl, Exists_cons_hd. reflexivity.
Defined.

(** In the failing batch above the first sample had already been through
    the classifier when the second one failed: the call log shows the
    work, the answer shows none of it. *)
Example predict_batch_partial_work :
  inference_log
    (predict_batch [setosa_sample; boundary_sample; setosa_sample]
       (world_with picky_model)).2
  = [CallPredict (feature_array setosa_sample);
     CallPredictProba (feature_array setosa_sample);
     CallPredict (feature_array boundary_sample)].
Proof. reflexivity. Qed.

(** *** The order of the checks on [POST /predict/batch] *)

(** A batch is checked in this order: first every sample against the
    field ranges (one sample out of range rejects the whole batch with
    422, whatever its size and whether or not a model is loaded), then
    the model (503), then the size (400); a failed check leaves the world
    untouched. Only a batch that passes all three reaches the
    classifier. *)
Theorem post_predict_batch_check_order (body : list IrisFeatures) (w : World) :
  (~ Forall valid_sample body ->
   exists d, post_predict_batch body w = (Raise (RequestValidationError d), w))
  /\ (Forall valid_sample body -> model w = None ->
      post_predict_batch body w
      = (Raise (HTTPException 503 "Model not loaded"), w))
  /\ (Forall valid_sample body -> is_Some (model w) ->
      (100 < length body)%nat ->
      post_predict_batch body w
      = (Raise (HTTPException 400 "Batch size cannot exceed 100 samples"), w))
  /\ (inference_log (post_predict_batch body w).2 <> inference_log w ->
      Forall valid_sample body /\ is_Some (model w) /\ (length body <= 100)%nat).
Proof.
  unfold post_predict_batch, bind, lift.
  destruct (BatchIrisFeatures_validate_spec body) as [[Hv ->] | [Hv [d ->]]].
  - split; [tauto |].
    unfold predict_batch, bind, get, raise.
    destruct (model w) as [m |] eqn:Hm.
    + split; [discriminate |].
      destruct (Z.ltb_spec 100 (Z.of_nat (length body))) as [Hbig | Hsmall].
      * split; [reflexivity |]. simpl. tauto.
      * split; [lia |]. intros _. split; [exact Hv |]. split; [eauto | lia].
    + split; [reflexivity |]. split; [intros _ [m Hm']; discriminate |].
      simpl. tauto.
  - split; [eauto |]. split; [tauto |]. split; [tauto |]. simpl. tauto.
Qed.

Lemma post_predict_batch_check_order_witness :
  exists d,
    post_predict_batch (long_sepal_sample :: batch_of_101) world_without_model
    = (Raise (RequestValidationError d), world_without_model).
Proof.
  apply (proj1 (post_predict_batch_check_order (long_sepal_sample :: batch_of_101)
                  world_without_model)).
  intros H. inversion H as [| ? ? [[_ Hle] _] _]; subst.
  apply Qle_bool_iff in Hle. vm_compute in Hle. discriminate.
Defined.

(** Shared by the statements about results: the name comes from the
    class table. *)
Lemma predict_result_shape_names (s : IrisFeatures) (w w' : World)
    (r : PredictionResponse) :
  predict s w = (Return r, w') -> prediction r ∈ target_names.
Proof.
  unfold predict, bind, get, raise, try_except.
  destruct (model w) as [m |]; [| discriminate].
  destruct (predict_one m s w) as [[r' | e] w1] eqn:Hone; [| discriminate].
  intros H. injection H as -> ->.
  apply predict_one_inv in Hone
    as (ids & id & name & probs & ps & c & _ & _ & Hname & _ & _ & _ & -> & _).
  eapply getitem_elem, Hname.
Qed.

(** *** [model_info] *)

(** [model_info] answers exactly when [health_check] does. Its counts
    are the lengths of the lists it returns, 4 and 3; every class name
    that [predict] can return in that state is one of its
    [target_classes]; and the description is the same whichever model is
    loaded: the loaded object is not looked at. *)
Theorem model_info_static (w : World) :
  returned (model_info w).1 = returned (health_check w).1
  /\ (model w = None ->
      model_info w = (Raise (HTTPException 503 "Model not loaded"), w))
  /\ (forall info, (model_info w).1 = Return info ->
        n_features info = Z.of_nat (length (features info))
        /\ n_features info = 4
        /\ n_classes info = Z.of_nat (length (target_classes info))
        /\ n_classes info = 3
        /\ (forall s r w', predict s w = (Return r, w') ->
                           prediction r ∈ target_classes info)
        /\ (forall w2, is_Some (model w2) -> (model_info w2).1 = Return info)).
Proof.
  rewrite health_check_spec.
  unfold model_info, bind, get, ret, raise.
  destruct (model w) as [m |] eqn:Hm; simpl.
  - split; [reflexivity |]. split; [discriminate |].
    intros info H. injection H as <-. simpl.
    repeat (split; [reflexivity |]). split.
    + intros s r w' Hr. apply predict_result_shape_names in Hr. exact Hr.
    + intros w2 [m2 ->]. reflexivity.
  - split; [reflexivity |]. split; [reflexivity |]. discriminate.
Qed.

(** *** Restarting after [load_model] *)

(** [save_model] writes the model where it is told to: after a save
    that returns, the path holds a file that [joblib.load] reads back as
    that model. *)
Definition save_persists (env : Env) : Prop :=
  forall m p f f', iris_save env m p f = Return f' -> f' !! p = Some (JoblibFile m).

(** Startup is repeatable. If [load_model] returned, then running it
    again on the filesystem it left, in the same process or in a fresh
    one whose model slot is empty or holds anything else, returns with the
    same model and changes nothing: a model that was trained at the
    first start is read back from "models/iris_model.joblib" at the next
    and is not trained again. *)
Theorem load_model_again (env env' : Env) (w w1 : World) (slot : option Model) :
  save_persists env ->
  load_model env w = (Return tt, w1) ->
  load_model env' (set_model slot w1) = (Return tt, w1).
Proof.
  intros Hsave. rewrite !load_model_spec.
  destruct (first_loadable (fs w) model_paths) as [m |] eqn:Hfirst.
  - intros H. injection H as <-.
    change (fs (set_model slot (set_model (Some m) w))) with (fs w).
    rewrite Hfirst. reflexivity.
  - destruct (fresh_training env (fs w)) as [[m f] |] eqn:Hfresh; [| discriminate].
    intros H. injection H as <-.
    change (fs (set_model slot (set_model (Some m) (set_fs f w)))) with f.
    assert (Hf : f !! "models/iris_model.joblib" = Some (JoblibFile m)).
    { revert Hfresh. unfold fresh_training.
      destruct (iris_train env) as [m' |]; [| discriminate].
      destruct (makedirs env "models" (fs w)); [| discriminate].
      destruct (iris_save env m' "models/iris_model.joblib" (fs w)) as [f' |] eqn:Hs;
        [| discriminate].
      intros H. injection H as -> ->. eapply Hsave, Hs. }
    unfold model_paths. cbn [first_loadable]. unfold deserializes at 1.
    rewrite Hf. reflexivity.
Qed.

Lemma env_trains_persists : save_persists env_trains.
Proof.
  intros m p f f' H. injection H as <-. apply lookup_insert_eq.
Qed.

Lemma load_model_again_witness :
  let w1 := {| model := Some stump;
               fs := <["models/iris_model.joblib" := JoblibFile stump]> ∅;
               inference_log := [] |} in
  save_persists env_trains
  /\ load_model env_trains world_without_model = (Return tt, w1)
  /\ load_model env_cannot_train (set_model None w1) = (Return tt, w1).
Proof.
  cbv zeta. split; [apply env_trains_persists |]. split; [reflexivity |].
  apply (load_model_again env_trains env_cannot_train world_without_model _ None
           env_trains_persists).
  reflexivity.
Defined.

(** *** [GET /] in every state *)

(** [GET /] answers 200 with the content of "static/index.html" when
    that file exists and 500 when it does not, and leaves the world as it
    is. In no state does [root] return the JSON description of the API:
    nothing in its [try] block raises [FileNotFoundError]. *)
Theorem get_root_never_json (w : World) :
  (forall content, fs w !! "static/index.html" = Some (OtherFile content) ->
     get_root w = (Return (200, FileBody content), w))
  /\ (fs w !! "static/index.html" = None ->
      get_root w = (Return (500, ErrorBody "Internal Server Error"), w))
  /\ (forall d, (root w).1 <> Return (ServeJson d))
  /\ (forall code d, (get_root w).1 <> Return (code, JsonBody d)).
Proof.
  rewrite get_root_spec, root_spec.
  split; [intros content ->; reflexivity |].
  split; [intros ->; reflexivity |].
  split; [discriminate |].
  intros code d. destruct (fs w !! "static/index.html") as [[m | c] |]; discriminate.
Qed.

Lemma get_root_never_json_witness :
  get_root world_with_asset = (Return (200, FileBody "<html></html>"), world_with_asset)
  /\ get_root world_with_stump
     = (Return (500, ErrorBody "Internal Server Error"), world_with_stump).
Proof.
  split.
  - apply (proj1 (get_root_never_json world_with_asset)). reflexivity.
  - apply (proj1 (proj2 (get_root_never_json world_with_stump))). reflexivity.
Defined.

End AppRestProps.

(** ** Properties of the rest of [src/data/data_loader.py] *)

Module DataLoaderRestProps.
Import Py DataLoader DataLoaderProps DataLoaderRest.

(** *** [np.unique] *)

(** Strictly increasing. *)
Fixpoint increasing (l : list Z) : Prop :=
  match l with
  | [] => True
  | k :: rest => Forall (fun k' => k < k') rest /\ increasing rest
  end.

Lemma insert_count_keys (c : Z) (l : list (Z * nat)) (k : Z) :
  k ∈ (insert_count c l).*1 <-> k = c \/ k ∈ l.*1.
Proof.
  induction l as [| [k' n] rest IH]; simpl.
  - rewrite list_elem_of_singleton. split; [tauto |].
    intros [H | H]; [exact H | inversion H].
  - destruct (Z.ltb_spec c k'); [| destruct (Z.eqb_spec c k')]; simpl;
      rewrite ?elem_of_cons; [tauto | subst; tauto |].
    rewrite IH. tauto.
Qed.

Lemma insert_count_increasing (c : Z) (l : list (Z * nat)) :
  increasing l.*1 -> increasing (insert_count c l).*1.
Proof.
  induction l as [| [k n] rest IH]; simpl; [intros _; split; [constructor | exact I] |].
  intros [Hall Hinc].
  destruct (Z.ltb_spec c k); [| destruct (Z.eqb_spec c k)]; simpl.
  - split; [| tauto]. constructor; [exact H |].
    eapply Forall_impl; [exact Hall |]. simpl. lia.
  - tauto.
  - split; [| apply IH, Hinc].
    apply Forall_forall. intros k' Hk'. apply insert_count_keys in Hk' as [-> | Hk'].
    + lia.
    + rewrite Forall_forall in Hall. apply Hall, Hk'.
Qed.

Lemma increasing_NoDup (l : list Z) : increasing l -> NoDup l.
Proof.
  induction l as [| k rest IH]; simpl; [constructor |].
  intros [Hall Hinc]. constructor; [| apply IH, Hinc].
  intros Hin. rewrite Forall_forall in Hall. specialize (Hall k Hin). lia.
Qed.

Lemma unique_counts_increasing (y : list Z) : increasing (np_unique y).
Proof.
  unfold np_unique, unique_counts. induction y as [| c y IH]; simpl; [exact I |].
  apply insert_count_increasing, IH.
Qed.

(** Inserting [c] adds one to its count and leaves the other counts. *)
Lemma insert_count_map (c : Z) (l : list (Z * nat)) :
  increasing l.*1 ->
  (list_to_map (insert_count c l) : gmap Z nat)
  = <[c := S (default 0%nat ((list_to_map l : gmap Z nat) !! c))]> (list_to_map l).
Proof.
  induction l as [| [k n] rest IH]; simpl; [reflexivity |].
  intros [Hall Hinc].
  destruct (Z.ltb_spec c k); [| destruct (Z.eqb_spec c k)]; simpl.
  - rewrite lookup_insert_ne by lia.
    rewrite (not_elem_of_list_to_map_1 rest c); [reflexivity |].
    intros Hin. rewrite Forall_forall in Hall. specialize (Hall c Hin). lia.
  - subst k. rewrite lookup_insert_eq. simpl. rewrite insert_insert_eq. reflexivity.
  - rewrite lookup_insert_ne by lia. rewrite (IH Hinc).
    apply insert_insert_ne. lia.
Qed.

Lemma unique_counts_lookup (y : list Z) (c : Z) :
  (list_to_map (unique_counts y) : gmap Z nat) !! c
  = if decide (count c y = 0%nat) then None else Some (count c y).
Proof.
  unfold unique_counts, count. induction y as [| c' y IH]; simpl; [reflexivity |].
  rewrite insert_count_map by apply (unique_counts_increasing y).
  destruct (decide (c' = c)) as [-> | Hne].
  - rewrite lookup_insert_eq, filter_cons_True by reflexivity.
    rewrite IH. simpl.
    destruct (decide (length (filter (fun y0 => y0 = c) y) = 0%nat)) as [-> | _];
      reflexivity.
  - rewrite lookup_insert_ne by exact Hne.
    rewrite filter_cons_False by exact Hne. exact IH.
Qed.

Lemma sum_list_cons (x : nat) (l : list nat) :
  sum_list (x :: l) = (x + sum_list l)%nat.
Proof. reflexivity. Qed.

Lemma insert_count_total (c : Z) (l : list (Z * nat)) :
  sum_list (insert_count c l).*2 = S (sum_list l.*2).
Proof.
  induction l as [| [k n] rest IH]; [reflexivity |].
  cbn [insert_count].
  destruct (Z.ltb_spec c k); [| destruct (Z.eqb_spec c k)];
    rewrite !fmap_cons; cbn [snd]; rewrite !sum_list_cons;
    rewrite ?fmap_cons, ?sum_list_cons, ?IH; cbn [snd]; lia.
Qed.

Lemma unique_counts_total (y : list Z) :
  sum_list (unique_counts y).*2 = length y.
Proof.
  unfold unique_counts. induction y as [| c y IH]; [reflexivity |].
  cbn [foldr length]. rewrite insert_count_total, IH. reflexivity.
Qed.

(** With distinct keys, [dict] is the map of the pairs. *)
Lemma dict_list_to_map {V} (pairs : list (Z * V)) :
  NoDup pairs.*1 -> dict pairs = list_to_map pairs.
Proof.
  unfold dict.
  assert (H : forall d0 : gmap Z V, NoDup pairs.*1 ->
             foldl (fun d kv => <[kv.1 := kv.2]> d) d0 pairs
             = list_to_map pairs ∪ d0).
  { induction pairs as [| [k v] rest IH]; intros d0 Hnd; simpl.
    - rewrite (left_id_L ∅ (∪)). reflexivity.
    - apply NoDup_cons in Hnd as [Hk Hnd]. rewrite (IH _ Hnd).
      rewrite <- insert_union_l. apply eq_sym, insert_union_r.
      apply not_elem_of_list_to_map_1, Hk. }
  intros Hnd. rewrite (H ∅ Hnd), (right_id_L ∅ (∪)). reflexivity.
Qed.

(** The class distribution of a summary, read at one class. *)
Lemma class_distribution_lookup {Scaler} (lib : Library Scaler)
    (X : ndarray) (y : list Z) (c : Z) :
  class_distribution (get_data_summary lib X y) !! c
  = if decide (count c y = 0%nat) then None else Some (count c y).
Proof.
  unfold get_data_summary. cbn [class_distribution].
  rewrite zip_fst_snd, dict_list_to_map.
  - apply unique_counts_lookup.
  - apply increasing_NoDup, (unique_counts_increasing y).
Qed.

(** *** [get_data_summary] *)

(** The class distribution of a summary maps every label that occurs in
    [y] to the number of times it occurs, and holds no other key.
    [n_classes] is its number of keys and its values add up to the length
    of [y]. [n_samples] is the first dimension of [X], whatever the
    length of [y]: the two arguments are not checked against each
    other. *)
Theorem get_data_summary_counts {Scaler} (lib : Library Scaler)
    (X : ndarray) (y : list Z) :
  (forall c, class_distribution (get_data_summary lib X y) !! c
             = if decide (count c y = 0%nat) then None else Some (count c y))
  /\ n_classes (get_data_summary lib X y)
     = size (class_distribution (get_data_summary lib X y))
  /\ sum_list (map_to_list (class_distribution (get_data_summary lib X y))).*2
     = length y
  /\ n_samples (get_data_summary lib X y) = shape0 X.
Proof.
  split; [intros c; apply class_distribution_lookup |].
  assert (Hnd : NoDup (unique_counts y).*1).
  { apply increasing_NoDup, (unique_counts_increasing y). }
  unfold get_data_summary.
  cbn [class_distribution n_classes n_samples].
  rewrite zip_fst_snd, (dict_list_to_map _ Hnd).
  split; [| split; [| reflexivity]].
  - rewrite map_size_list_to_map by exact Hnd.
    unfold np_unique. rewrite length_fmap. reflexivity.
  - rewrite (map_to_list_to_map _ Hnd). apply unique_counts_total.
Qed.

(** The summary of the unit test of the repository. *)
Example get_data_summary_test {Scaler} (lib : Library Scaler) :
  let s := get_data_summary lib
             (Array2 {| ncols := 2; rows := [[1; 2]; [3; 4]; [5; 6]]%Q |})
             [0; 1; 0] in
  n_samples s = 3%nat /\ n_features s = 2%nat /\ n_classes s = 2%nat
  /\ class_distribution s = <[0 := 2%nat]> (<[1 := 1%nat]> ∅).
Proof. cbv zeta. repeat split. Qed.

(** *** [prepare_data_pipeline] *)

Section Pipeline.
Context {Scaler Ambient : Type}.
Variable lib : Library Scaler.
Variable train_test_split :
  list (list Q) -> list Z -> float -> option Z -> option (list Z)
  -> M Ambient (Split (list Q)).

(** [fit_transform] returns a matrix of the shape it was given. *)
Definition scaler_keeps_shape : Prop :=
  forall sc X,
    length (rows (fit_transform lib sc X).2) = length (rows X)
    /\ ncols (fit_transform lib sc X).2 = ncols X.

(** On a three-class dataset the pipeline returns, with or without
    normalization, for every seed that scikit-learn accepts (0 to
    2^32 - 1) and every test fraction that leaves room for the three
    classes in both parts. The two summaries then count
    [n_test] and [n - n_test] samples, which add up to the dataset, with
    the dataset's number of features each; for every class the two class
    distributions add up to the class's count in the dataset; and the
    result carries the dataset's names and the [normalize] flag it was
    called with. *)
Theorem prepare_data_pipeline_summaries (normalize : bool) (test_size : float)
    (random_state : Z) (g : Ambient) (nt : Z) :
  stratified_contract train_test_split ->
  0 <= random_state < 2 ^ 32 ->
  (normalize = true -> scaler_keeps_shape) ->
  length (rows (iris_data lib)) = length (iris_target lib) ->
  three_classes (iris_target lib) ->
  (forall c, 0 <= c < 3 -> (2 <= count c (iris_target lib))%nat) ->
  n_test test_size (length (iris_target lib)) = Some nt ->
  3 <= nt -> 3 <= Z.of_nat (length (iris_target lib)) - nt ->
  exists res g',
    prepare_data_pipeline lib train_test_split normalize test_size random_state g
    = (Return res, g')
    /\ n_samples (test_summary res) = Z.to_nat nt
    /\ n_samples (train_summary res)
       = (length (iris_target lib) - Z.to_nat nt)%nat
    /\ n_features (train_summary res) = ncols (iris_data lib)
    /\ n_features (test_summary res) = ncols (iris_data lib)
    /\ (forall c,
          (default 0 (class_distribution (train_summary res) !! c)
           + default 0 (class_distribution (test_summary res) !! c))%nat
          = count c (iris_target lib))
    /\ prepared_feature_names res = Some (iris_feature_names lib)
    /\ prepared_target_names res = Some (iris_target_names lib)
    /\ prepared_normalized res = normalize.
Proof.
  intros Hcontract Hseed Hscaler Hlen Hclasses Hpop Hnt Hlo Hhi.
  unfold prepare_data_pipeline, load_iris_data, DataLoader_init.
  cbn [scaler].
  set (X := if normalize
            then fit_transform lib (StandardScaler lib) (iris_data lib)
            else (StandardScaler lib, iris_data lib)).
  assert (HX : length (rows X.2) = length (iris_target lib)
               /\ ncols X.2 = ncols (iris_data lib)).
  { unfold X. destruct normalize; simpl; [| tauto].
    destruct (Hscaler eq_refl (StandardScaler lib) (iris_data lib)) as [H1 H2].
    split; congruence. }
  destruct HX as [HXlen HXcols].
  destruct X as [sc X']. cbn [snd] in *. cbn [data_features data_target].
  destruct (Hcontract (rows X') (iris_target lib) test_size random_state g nt)
    as (sp & g' & Hsp & HXte & Hyte & HXtr & Hytr & Hperm & _); try assumption.
  unfold split_data, bind, ret. rewrite Hsp.
  eexists _, g'. split; [reflexivity |].
  cbn [test_summary train_summary prepared_feature_names prepared_target_names
       prepared_normalized data_feature_names data_target_names].
  split; [exact HXte |]. split; [exact HXtr |].
  split; [exact HXcols |]. split; [exact HXcols |].
  split; [| repeat split].
  intros c. rewrite !class_distribution_lookup.
  assert (Hlabels : y_train sp ++ y_test sp ≡ₚ iris_target lib).
  { apply (split_labels (rows X')); [congruence | congruence | congruence | exact Hperm]. }
  apply (count_Permutation c) in Hlabels. rewrite count_app in Hlabels.
  destruct (decide (count c (y_train sp) = 0%nat)),
    (decide (count c (y_test sp) = 0%nat)); simpl; lia.
Qed.

End Pipeline.

(** *** Concrete runs *)

(** A library to run the pipeline on: 150 rows of four features with the
    labels of [y150], a scaler that leaves the matrix as it is, and
    statistics that are not computed. *)
Definition reference_library : Library unit :=
  {| iris_data :=
       {| ncols := 4;
          rows := (fun i => replicate 4 (inject_Z (Z.of_nat i))) <$> seq 0 150 |};
     iris_target := y150;
     iris_feature_names := App.feature_names;
     iris_target_names := App.target_names;
     StandardScaler := tt;
     fit_transform := fun sc X => (sc, X);
     np_mean_axis0 := fun _ => [];
     np_std_axis0 := fun _ => [];
     np_mean := fun _ => 0%Q;
     np_std := fun _ => 0%Q |}.

(** The literal [0.3] *)
Definition test_size_03 : float := 0x1.3333333333333p-2%float.

Lemma prepare_data_pipeline_summaries_witness :
  exists res g',
    prepare_data_pipeline reference_library reference_split true
      default_test_size default_random_state 0
    = (Return res, g')
    /\ n_samples (test_summary res) = 30%nat
    /\ n_samples (train_summary res) = 120%nat
    /\ n_features (train_summary res) = 4%nat
    /\ n_features (test_summary res) = 4%nat
    /\ (forall c,
          (default 0 (class_distribution (train_summary res) !! c)
           + default 0 (class_distribution (test_summary res) !! c))%nat
          = count c y150)
    /\ prepared_feature_names res = Some App.feature_names
    /\ prepared_target_names res = Some App.target_names
    /\ prepared_normalized res = true.
Proof.
  apply (prepare_data_pipeline_summaries reference_library reference_split true
           default_test_size default_random_state 0 30).
  - apply reference_split_stratified.
  - unfold default_random_state. lia.
  - intros _ sc X. split; reflexivity.
  - reflexivity.
  - apply y150_three_classes.
  - apply y150_populated.
  - vm_compute. reflexivity.
  - lia.
  - vm_compute. discriminate.
Defined.

(** The sizes the tests of the repository expect for a test fraction of
    0.3 and the seed 123. *)
Example prepare_data_pipeline_custom_params :
  match (prepare_data_pipeline reference_library reference_split false
           test_size_03 123 0).1 with
  | Return res =>
      (n_samples (train_summary res), n_samples (test_summary res)) = (105, 45)%nat
  | Raise _ => False
  end.
Proof. vm_compute. reflexivity. Qed.

End DataLoaderRestProps.
